(** * The Plan-Execute-Synthesise workflow of the Orin assistant

    A shallow embedding of [cli.ts] (agenticWorkflow) and of the three tool
    executors under [src/tools] ([web-search.ts], [fetch-url.ts],
    [generate-haiku.ts]), with the plan shape of [src/prompts/planner.js].

    Conventions of the embedding:
    - a JavaScript string is the list of its UTF-16 code units;
    - a JavaScript number is a finite rational, [NaN] or an infinity (every
      finite double is a rational, and the code only compares numbers);
    - [async] functions are run to completion one after the other, as every
      call in the source is awaited before the next statement: a computation
      is a function from the history of calls made to the outside world to
      a completion (normal or abrupt) and the extended history;
    - the outside world (model calls, search provider, fetch engine, the
      environment variable) is a record of oracles, each answering from the
      history of the calls made so far;
    - console narration ([console.log], [process.stdout.write], ...) is not
      part of the model, except for what evaluating its arguments can do:
      a [catch] block that narrates [error.message] or [String(error)]
      throws when that conversion throws;
    - a thrown value is an [Error] with a string message, a value with a
      string conversion, or a value without one ([Unprintable]); a
      [PrintableEnv] is a world that throws none of the last kind. *)

From Stdlib Require Import String Ascii List Arith NArith QArith Bool Lia Lqa.
Import ListNotations.

Close Scope Q_scope.

(** ** JavaScript values *)

Definition code_unit := N.
Definition jsstring := list code_unit.

(** A string literal of the source (ASCII text). *)
Definition lit (s : string) : jsstring :=
  map N_of_ascii (list_ascii_of_string s).

Definition LF : jsstring := [10%N].

(** ECMAScript [WhiteSpace] and [LineTerminator] code points, the characters
    removed by [String.prototype.trim]. *)
Definition is_whitespace (c : code_unit) : bool :=
  ((9 <=? c) && (c <=? 13) ||
   (c =? 32) || (c =? 160) || (c =? 5760) ||
   ((8192 <=? c) && (c <=? 8202)) ||
   (c =? 8232) || (c =? 8233) || (c =? 8239) || (c =? 8287) ||
   (c =? 12288) || (c =? 65279))%N.

Fixpoint trimStart (s : jsstring) : jsstring :=
  match s with
  | c :: s' => if is_whitespace c then trimStart s' else s
  | [] => []
  end.

Definition trimEnd (s : jsstring) : jsstring := rev (trimStart (rev s)).

Definition trim (s : jsstring) : jsstring := trimEnd (trimStart s).

(** [s.substring(0, n)] and [xs.slice(0, n)]. *)
Definition substring0 (n : nat) (s : jsstring) : jsstring := firstn n s.
Definition slice0 {A} (n : nat) (xs : list A) : list A := firstn n xs.

(** [xs.join(sep)] on an array of strings. *)
Fixpoint join (sep : jsstring) (xs : list jsstring) : jsstring :=
  match xs with
  | [] => []
  | [x] => x
  | x :: xs' => x ++ sep ++ join sep xs'
  end.

(** Truthiness of a string: only the empty string is falsy. *)
Definition truthy_string (s : jsstring) : bool :=
  match s with [] => false | _ => true end.

Inductive JsNumber :=
| Fin (q : Q)
| NaN
| PosInf
| NegInf.

Definition truthy_number (n : JsNumber) : bool :=
  match n with
  | Fin q => negb (Qeq_bool q 0)
  | NaN => false
  | PosInf | NegInf => true
  end.

Definition Math_max (a b : JsNumber) : JsNumber :=
  match a, b with
  | NaN, _ | _, NaN => NaN
  | PosInf, _ | _, PosInf => PosInf
  | NegInf, x | x, NegInf => x
  | Fin x, Fin y => Fin (if Qle_bool x y then y else x)
  end.

Definition Math_min (a b : JsNumber) : JsNumber :=
  match a, b with
  | NaN, _ | _, NaN => NaN
  | NegInf, _ | _, NegInf => NegInf
  | PosInf, x | x, PosInf => x
  | Fin x, Fin y => Fin (if Qle_bool x y then x else y)
  end.

(** What a [catch] clause can receive: an [Error] (with its message, a
    string), a [ZodError] (an [Error] too, with the messages of its issues),
    any other thrown value that has a string conversion, given by its
    [String(...)], or a value that has none: [String(...)] of it throws, a
    [TypeError] for an object without [toString] such as
    [Object.create(null)], or whatever its own [toString] throws. *)
Inductive Thrown :=
| ErrorObj (message : jsstring)
| ZodErrorObj (message : jsstring) (issues : list jsstring)
| NonError (asString : jsstring)
| Unprintable (thrownByString : Thrown).

(** ** The plan ([plannerSchema]) *)

Inductive ToolName := webSearchTool | fetchUrlTool | generateHaikuTool.

Definition ToolName_eqb (a b : ToolName) : bool :=
  match a, b with
  | webSearchTool, webSearchTool
  | fetchUrlTool, fetchUrlTool
  | generateHaikuTool, generateHaikuTool => true
  | _, _ => false
  end.

Record Parameters := {
  p_webSearch : option (list jsstring);
  p_fetchUrl : option (list jsstring);
  p_generateHaiku : option (list jsstring)
}.

Record Plan := {
  reasoning : jsstring;
  tools : list ToolName;
  parameters : Parameters;
  expectedWorkflow : jsstring
}.

(** [plan.object.parameters[toolName]] *)
Definition param_lookup (ps : Parameters) (toolName : ToolName)
  : option (list jsstring) :=
  match toolName with
  | webSearchTool => p_webSearch ps
  | fetchUrlTool => p_fetchUrl ps
  | generateHaikuTool => p_generateHaiku ps
  end.

(** ** Search options, results and tool results *)

Inductive SearchType := neural | keyword | auto.

(** The input type of [SearchOptionsSchema]: every field may be absent. *)
Record SearchOptionsInput := {
  in_numResults : option JsNumber;
  in_searchType : option SearchType;
  in_text : option bool;
  in_highlights : option bool;
  in_summary : option bool;
  in_startPublishedDate : option jsstring;
  in_endPublishedDate : option jsstring;
  in_includeDomains : option (list jsstring);
  in_excludeDomains : option (list jsstring)
}.

(** The output type of [SearchOptionsSchema]: defaults filled in. *)
Record SearchOptions := {
  numResults : JsNumber;
  searchType : SearchType;
  text : bool;
  highlights : bool;
  summary : bool;
  startPublishedDate : option jsstring;
  endPublishedDate : option jsstring;
  includeDomains : option (list jsstring);
  excludeDomains : option (list jsstring)
}.

(** [searchParams], the object handed to [exa.searchAndContents]. *)
Record SearchParams := {
  sp_numResults : JsNumber;
  sp_type : SearchType;
  sp_text : bool;
  sp_highlights : bool;
  sp_summary : bool;
  sp_startPublishedDate : option jsstring;
  sp_endPublishedDate : option jsstring;
  sp_includeDomains : option (list jsstring);
  sp_excludeDomains : option (list jsstring)
}.

Record ExaSearchResult := {
  r_title : jsstring;
  r_url : jsstring;
  r_id : jsstring;
  r_text : option jsstring;
  r_highlights : option (list jsstring);
  r_summary : option jsstring;
  r_publishedDate : option jsstring;
  r_author : option jsstring;
  r_image : option jsstring;
  r_favicon : option jsstring
}.

(** What the provider answers to [searchAndContents]. *)
Record ExaResponse := {
  x_results : list ExaSearchResult;
  x_requestId : jsstring;
  x_costDollars : option JsNumber
}.

Record WebSearchResponse := {
  results : list ExaSearchResult;
  requestId : jsstring;
  resolvedSearchType : SearchType;
  costDollars : option JsNumber
}.

(** What [engine.fetchHTML] resolves to: the content and a possible
    non-critical error message. *)
Record HTMLFetchResult := {
  f_content : jsstring;
  f_error : option jsstring
}.

Inductive Payload :=
| SearchPayload (top : list ExaSearchResult)
| FetchPayload (content : jsstring) (contentLength : nat)
| HaikuPayload (haiku : jsstring).

(** An entry of [toolResults]: [{tool, query|url|prompt, result}] or
    [{tool, query|url|prompt, error}]. *)
Inductive Outcome :=
| Result (result : Payload)
| Failure (error : jsstring).

Record ToolResult := {
  tool : ToolName;
  argument : jsstring;
  outcome : Outcome
}.

Definition is_success (r : ToolResult) : bool :=
  match outcome r with Result _ => true | Failure _ => false end.

(** ** The outside world *)

Inductive TextPrompt :=
| PromptText (prompt : jsstring)
| PromptSynthesis (reasoning expectedWorkflow userQuery : jsstring)
                  (gathered : list ToolResult).

Inductive Event :=
| EvGenerateObject (model : string) (userQuery : jsstring)
| EvGenerateText (model : string) (prompt : TextPrompt)
| EvExaSearch (query : jsstring) (searchParams : SearchParams)
| EvEngineNew (engine : nat)
| EvFetchHTML (engine : nat) (url : jsstring)
| EvCleanup (engine : nat).

Definition History := list Event.

Inductive Completion (A : Type) :=
| Normal (a : A)
| Throw (e : Thrown).

Arguments Normal {A} a.
Arguments Throw {A} e.

Record Env := {
  (** [process.env["EXA_API_KEY"]] *)
  EXA_API_KEY : option jsstring;
  (** the planning model call, its answer already checked against
      [plannerSchema] *)
  generateObject : History -> jsstring -> Completion Plan;
  generateText : History -> string -> TextPrompt -> Completion jsstring;
  searchAndContents : History -> jsstring -> SearchParams -> Completion ExaResponse;
  fetchHTML : History -> nat -> jsstring -> Completion HTMLFetchResult;
  cleanup : History -> nat -> Completion unit;
  (** messages of the zod library *)
  zod_invalid_type : jsstring;
  zod_too_small : jsstring;
  zod_too_big : jsstring;
  zod_message : list jsstring -> jsstring
}.

(** ** Computations *)

Definition M (A : Type) : Type := History -> Completion A * History.

Definition ret {A} (a : A) : M A := fun h => (Normal a, h).

Definition throw {A} (e : Thrown) : M A := fun h => (Throw e, h).

(** [error instanceof Error ? error.message : String(error)], the expression
    the [catch] blocks evaluate to narrate or record an error: it throws when
    [String(error)] does. *)
Definition error_description (error : Thrown) : M jsstring :=
  match error with
  | ErrorObj m => ret m
  | ZodErrorObj m _ => ret m
  | NonError s => ret s
  | Unprintable t => throw t
  end.

Definition bind {A B} (m : M A) (k : A -> M B) : M B :=
  fun h =>
    match m h with
    | (Normal a, h') => k a h'
    | (Throw e, h') => (Throw e, h')
    end.

(** [try { m } catch (error) { handler }] *)
Definition try_catch {A} (m : M A) (handler : Thrown -> M A) : M A :=
  fun h =>
    match m h with
    | (Normal a, h') => (Normal a, h')
    | (Throw e, h') => handler e h'
    end.

(** [try { m } finally { fin }]: the completion of [m] stands unless [fin]
    itself completes abruptly. *)
Definition try_finally {A} (m : M A) (fin : M unit) : M A :=
  fun h =>
    match m h with
    | (c, h') =>
        match fin h' with
        | (Normal _, h'') => (c, h'')
        | (Throw e, h'') => (Throw e, h'')
        end
    end.

(** An awaited call to the outside world: it is recorded, and completes as
    the oracle says. *)
Definition call {A} (ev : Event) (answer : History -> Completion A) : M A :=
  fun h => (answer h, h ++ [ev]).

Declare Scope js_scope.
Delimit Scope js_scope with js.
Notation "x <- m ;; k" := (bind m (fun x => k))
  (at level 100, m at next level, right associativity) : js_scope.
Open Scope js_scope.

(** [for (const x of xs) { acc = body x acc }] *)
Fixpoint for_of {A S} (xs : list A) (body : A -> S -> M S) (acc : S) : M S :=
  match xs with
  | [] => ret acc
  | x :: xs' => acc' <- body x acc ;; for_of xs' body acc'
  end.

(** [xs.push(x)] *)
Definition push {A} (xs : list A) (x : A) : list A := xs ++ [x].

(** ** [src/tools/web-search.ts] *)

Definition ZodError (env : Env) (issues : list jsstring) : Thrown :=
  ZodErrorObj (zod_message env issues) issues.

(** [ExaApiKeySchema.parse]: [z.string().min(1, "EXA_API_KEY is required")] *)
Definition ExaApiKeySchema_parse (env : Env) (v : option jsstring) : M jsstring :=
  match v with
  | None => throw (ZodError env [zod_invalid_type env])
  | Some s =>
      if (length s <? 1)%nat
      then throw (ZodError env [lit "EXA_API_KEY is required"])
      else ret s
  end.

Definition default {A} (d : A) (o : option A) : A :=
  match o with Some a => a | None => d end.

(** The issues of [z.number().min(1).max(100)] on a number. *)
Definition numResults_issues (env : Env) (n : JsNumber) : list jsstring :=
  match n with
  | NaN => [zod_invalid_type env]
  | NegInf => [zod_too_small env]
  | PosInf => [zod_too_big env]
  | Fin q =>
      (if Qle_bool 1 q then [] else [zod_too_small env]) ++
      (if Qle_bool q 100 then [] else [zod_too_big env])
  end.

(** [SearchOptionsSchema.parse] on an options object. *)
Definition SearchOptionsSchema_parse (env : Env) (o : SearchOptionsInput)
  : M SearchOptions :=
  let n := default (Fin 5) (in_numResults o) in
  match numResults_issues env n with
  | [] =>
      ret {| numResults := n;
             searchType := default auto (in_searchType o);
             text := default true (in_text o);
             highlights := default true (in_highlights o);
             summary := default true (in_summary o);
             startPublishedDate := in_startPublishedDate o;
             endPublishedDate := in_endPublishedDate o;
             includeDomains := in_includeDomains o;
             excludeDomains := in_excludeDomains o |}
  | issues => throw (ZodError env issues)
  end.

(** [a || b] on a possibly undefined number. *)
Definition or_number (a : option JsNumber) (b : JsNumber) : JsNumber :=
  match a with
  | Some n => if truthy_number n then n else b
  | None => b
  end.

(** [Math.min(Math.max(parsedOptions?.numResults || 5, 3), 5)] *)
Definition clamp_numResults (parsedOptions : option SearchOptions) : JsNumber :=
  Math_min
    (Math_max (or_number (option_map numResults parsedOptions) (Fin 5)) (Fin 3))
    (Fin 5).

(** [if (x) { searchParams.x = x }] for a possibly undefined string. *)
Definition if_truthy_string (o : option jsstring) : option jsstring :=
  match o with
  | Some s => if truthy_string s then Some s else None
  | None => None
  end.

Definition build_searchParams (parsedOptions : option SearchOptions) : SearchParams :=
  {| sp_numResults := clamp_numResults parsedOptions;
     sp_type := default auto (option_map searchType parsedOptions);
     sp_text := default true (option_map text parsedOptions);
     sp_highlights := default true (option_map highlights parsedOptions);
     sp_summary := default true (option_map summary parsedOptions);
     sp_startPublishedDate :=
       match parsedOptions with
       | Some po => if_truthy_string (startPublishedDate po)
       | None => None
       end;
     sp_endPublishedDate :=
       match parsedOptions with
       | Some po => if_truthy_string (endPublishedDate po)
       | None => None
       end;
     sp_includeDomains :=
       match parsedOptions with Some po => includeDomains po | None => None end;
     sp_excludeDomains :=
       match parsedOptions with Some po => excludeDomains po | None => None end |}.

(** The object literal built by [response.results.map(...)]. *)
Definition pick_fields (result : ExaSearchResult) : ExaSearchResult :=
  {| r_title := r_title result;
     r_url := r_url result;
     r_id := r_id result;
     r_text := r_text result;
     r_highlights := r_highlights result;
     r_summary := r_summary result;
     r_publishedDate := r_publishedDate result;
     r_author := r_author result;
     r_image := r_image result;
     r_favicon := r_favicon result |}.

(** [!query || query.trim().length === 0] *)
Definition query_is_empty (query : jsstring) : bool :=
  negb (truthy_string query) || (length (trim query) =? 0)%nat.

Definition webSearch_catch (error : Thrown) : M WebSearchResponse :=
  match error with
  | ZodErrorObj _ issues =>
      throw (ErrorObj (lit "Validation error: " ++ join (lit ", ") issues))
  | ErrorObj message =>
      throw (ErrorObj (lit "Web search failed: " ++ message))
  | NonError _ | Unprintable _ =>
      throw (ErrorObj (lit "An unexpected error occurred during web search"))
  end.

Definition webSearch (env : Env) (query : jsstring)
  (options : option SearchOptionsInput) : M WebSearchResponse :=
  try_catch
    (if query_is_empty query
     then throw (ErrorObj (lit "Search query cannot be empty"))
     else
       apiKey <- ExaApiKeySchema_parse env (EXA_API_KEY env) ;;
       parsedOptions <-
         match options with
         | Some o => po <- SearchOptionsSchema_parse env o ;; ret (Some po)
         | None => ret None
         end ;;
       let searchParams := build_searchParams parsedOptions in
       response <-
         call (EvExaSearch query searchParams)
              (fun h => searchAndContents env h query searchParams) ;;
       ret {| results := map pick_fields (x_results response);
              requestId := x_requestId response;
              resolvedSearchType := default auto (option_map searchType parsedOptions);
              costDollars := x_costDollars response |})
    webSearch_catch.

(** ** [src/tools/fetch-url.ts] *)

Definition is_EngineNew (ev : Event) : bool :=
  match ev with EvEngineNew _ => true | _ => false end.

(** [new HybridEngine({...})]: the constructor only stores its configuration;
    it yields a fresh engine, numbered by creation order. *)
Definition new_HybridEngine : M nat :=
  fun h =>
    let engine := length (filter is_EngineNew h) in
    (Normal engine, h ++ [EvEngineNew engine]).

(** The [catch] block narrates the error on the console, which evaluates
    [error.message] (with the code and status of an [Error], taken to be
    printable) or [String(error)], and re-throws it. *)
Definition fetchUrl (env : Env) (url : jsstring) : M jsstring :=
  engine <- new_HybridEngine ;;
  try_finally
    (try_catch
       (result <- call (EvFetchHTML engine url)
                       (fun h => fetchHTML env h engine url) ;;
        ret (f_content result))
       (fun error =>
          narrated <- error_description error ;;
          throw error))
    (call (EvCleanup engine) (fun h => cleanup env h engine)).

(** ** [src/tools/generate-haiku.ts] *)

Definition haikuPrompt (prompt : jsstring) : jsstring :=
  lit "Generate a traditional haiku (5-7-5 syllable pattern) based on this prompt: "
  ++ prompt ++ LF
  ++ lit "      " ++ LF
  ++ lit "      Rules:" ++ LF
  ++ lit "      - Follow the 5-7-5 syllable pattern strictly" ++ LF
  ++ lit "      - Include nature imagery when possible" ++ LF
  ++ lit "      - Capture a moment or emotion" ++ LF
  ++ lit "      - Return only the haiku, no explanations" ++ LF
  ++ lit "      - Use line breaks between the three lines".

Definition fallbackHaiku : jsstring :=
  lit "AI dreams unfold here" ++ LF
  ++ lit "Words dance like cherry blossoms" ++ LF
  ++ lit "Spring code gently flows".

(** The [catch] block narrates the error on the console, which evaluates
    [error.message] or [String(error)], before it returns the fallback. *)
Definition generateHaiku (env : Env) (prompt : jsstring) : M jsstring :=
  try_catch
    (let p := PromptText (haikuPrompt prompt) in
     call (EvGenerateText "gpt-4.1-nano" p)
          (fun h => generateText env h "gpt-4.1-nano"%string p))
    (fun error =>
       narrated <- error_description error ;;
       ret fallbackHaiku).

(** ** [cli.ts]: agenticWorkflow *)

Definition webSearch_step (env : Env) (query : jsstring)
  (toolResults : list ToolResult) : M (list ToolResult) :=
  try_catch
    (result <- webSearch env query None ;;
     ret (push toolResults
            {| tool := webSearchTool;
               argument := query;
               outcome := Result (SearchPayload (slice0 3 (results result))) |}))
    (fun error =>
       description <- error_description error ;;
       ret (push toolResults
              {| tool := webSearchTool;
                 argument := query;
                 outcome := Failure description |})).

Definition fetchUrl_step (env : Env) (url : jsstring)
  (toolResults : list ToolResult) : M (list ToolResult) :=
  try_catch
    (content <- fetchUrl env url ;;
     ret (push toolResults
            {| tool := fetchUrlTool;
               argument := url;
               outcome := Result (FetchPayload (substring0 2000 content)
                                               (length content)) |}))
    (fun error =>
       description <- error_description error ;;
       ret (push toolResults
              {| tool := fetchUrlTool;
                 argument := url;
                 outcome := Failure description |})).

Definition generateHaiku_step (env : Env) (prompt : jsstring)
  (toolResults : list ToolResult) : M (list ToolResult) :=
  try_catch
    (haiku <- generateHaiku env prompt ;;
     ret (push toolResults
            {| tool := generateHaikuTool;
               argument := prompt;
               outcome := Result (HaikuPayload haiku) |}))
    (fun error =>
       description <- error_description error ;;
       ret (push toolResults
              {| tool := generateHaikuTool;
                 argument := prompt;
                 outcome := Failure description |})).

(** [if (toolName === name && parameters) { for (const x of parameters) ... }]:
    an array, even an empty one, is truthy; [undefined] is not. *)
Definition when_tool (toolName name : ToolName)
  (parameters : option (list jsstring))
  (step : jsstring -> list ToolResult -> M (list ToolResult))
  (toolResults : list ToolResult) : M (list ToolResult) :=
  if ToolName_eqb toolName name
  then match parameters with
       | Some ps => for_of ps step toolResults
       | None => ret toolResults
       end
  else ret toolResults.

(** The body of [for (const toolName of plan.object.tools)]. *)
Definition tool_body (env : Env) (plan : Plan) (toolName : ToolName)
  (toolResults : list ToolResult) : M (list ToolResult) :=
  let parameters := param_lookup (parameters plan) toolName in
  r1 <- when_tool toolName webSearchTool parameters (webSearch_step env) toolResults ;;
  r2 <- when_tool toolName fetchUrlTool parameters (fetchUrl_step env) r1 ;;
  when_tool toolName generateHaikuTool parameters (generateHaiku_step env) r2.

(** Step 2 of the workflow: [toolResults] after the loop over the plan. *)
Definition executeTools (env : Env) (plan : Plan) : M (list ToolResult) :=
  for_of (tools plan) (tool_body env plan) [].

Record WorkflowResult := {
  w_plan : Plan;
  w_toolResults : list ToolResult;
  w_response : jsstring
}.

Definition agenticWorkflow (env : Env) (userQuery : jsstring) : M WorkflowResult :=
  plan <- call (EvGenerateObject "gemini-2.5-flash" userQuery)
               (fun h => generateObject env h userQuery) ;;
  toolResults <- executeTools env plan ;;
  let synthesisPrompt :=
    PromptSynthesis (reasoning plan) (expectedWorkflow plan) userQuery toolResults in
  finalResponse <- call (EvGenerateText "gpt-4.1-mini" synthesisPrompt)
                        (fun h => generateText env h "gpt-4.1-mini"%string synthesisPrompt) ;;
  ret {| w_plan := plan; w_toolResults := toolResults; w_response := finalResponse |}.

(** ** The flattened plan *)

(** The invocations of a plan: [tools] in order and, within each tool, its
    parameter list in order; no list counts as the empty list. *)
Definition params_of (plan : Plan) (toolName : ToolName) : list jsstring :=
  default [] (param_lookup (parameters plan) toolName).

Definition invocations (plan : Plan) : list (ToolName * jsstring) :=
  flat_map (fun t => map (pair t) (params_of plan t)) (tools plan).

Definition invocation_count (plan : Plan) : nat :=
  list_sum (map (fun t => length (params_of plan t)) (tools plan)).

Definition key (r : ToolResult) : ToolName * jsstring := (tool r, argument r).

(** One invocation, as the loop body runs it for its tool. *)
Definition invoke (env : Env) (inv : ToolName * jsstring)
  : list ToolResult -> M (list ToolResult) :=
  match fst inv with
  | webSearchTool => webSearch_step env (snd inv)
  | fetchUrlTool => fetchUrl_step env (snd inv)
  | generateHaikuTool => generateHaiku_step env (snd inv)
  end.

Definition haiku_succeeds (r : ToolResult) : bool :=
  implb (ToolName_eqb (tool r) generateHaikuTool) (is_success r).

Definition not_of_tool (t : ToolName) (r : ToolResult) : bool :=
  negb (ToolName_eqb (tool r) t).

(** The synthesis call of [agenticWorkflow]. *)
Definition synthesis_call (plan : Plan) (userQuery : jsstring)
  (toolResults : list ToolResult) : Event :=
  EvGenerateText "gpt-4.1-mini"
    (PromptSynthesis (reasoning plan) (expectedWorkflow plan) userQuery toolResults).

Definition planning_call (userQuery : jsstring) : Event :=
  EvGenerateObject "gemini-2.5-flash" userQuery.

(** Number of times [cleanup] was called on an engine. *)
Definition is_Cleanup_of (engine : nat) (ev : Event) : bool :=
  match ev with EvCleanup e => (e =? engine)%nat | _ => false end.

Definition cleanup_count (engine : nat) (h : History) : nat :=
  length (filter (is_Cleanup_of engine) h).

(** [parsedOptions?.numResults], before the default and the clamp. *)
Definition requested_numResults (options : option SearchOptionsInput)
  : option JsNumber :=
  match options with
  | Some o => in_numResults o
  | None => None
  end.

(** The options pass [SearchOptionsSchema]. *)
Definition options_accepted (env : Env) (options : option SearchOptionsInput) : bool :=
  match options with
  | Some o =>
      match numResults_issues env (default (Fin 5) (in_numResults o)) with
      | [] => true
      | _ => false
      end
  | None => true
  end.

(** The key passes [ExaApiKeySchema]. *)
Definition apiKey_accepted (env : Env) : bool :=
  match EXA_API_KEY env with
  | Some s => negb (length s <? 1)%nat
  | None => false
  end.

(** ** A sample world

    The search provider fails on the query [bad] and otherwise sends five
    results; the fetch engine fails on [https://down.example] and otherwise
    sends 2500 characters; the haiku model is unreachable; the planner asks
    for two searches, two fetches and a haiku. *)

Fixpoint jsstring_eqb (a b : jsstring) : bool :=
  match a, b with
  | [], [] => true
  | x :: a', y :: b' => (x =? y)%N && jsstring_eqb a' b'
  | _, _ => false
  end.

Definition sample_result (n : N) : ExaSearchResult :=
  {| r_title := lit "Result " ++ [(48 + n)%N];
     r_url := lit "https://example.com/" ++ [(48 + n)%N];
     r_id := [(48 + n)%N];
     r_text := Some (lit "text");
     r_highlights := None;
     r_summary := Some (lit "summary");
     r_publishedDate := None;
     r_author := None;
     r_image := None;
     r_favicon := None |}.

Definition sample_plan : Plan :=
  {| reasoning := lit "search, read, then write";
     tools := [webSearchTool; fetchUrlTool; generateHaikuTool];
     parameters :=
       {| p_webSearch := Some [lit "bad"; lit "good"];
          p_fetchUrl := Some [lit "https://down.example"; lit "https://example.com"];
          p_generateHaiku := Some [lit "the sea"] |};
     expectedWorkflow := lit "combine everything" |}.

Definition sample_world (plan : Plan) : Env :=
  {| EXA_API_KEY := Some (lit "secret");
     generateObject := fun _ _ => Normal plan;
     generateText := fun _ model _ =>
       if String.eqb model "gpt-4.1-nano"
       then Throw (ErrorObj (lit "model unreachable"))
       else Normal (lit "final answer");
     searchAndContents := fun _ query _ =>
       if jsstring_eqb query (lit "bad")
       then Throw (ErrorObj (lit "rate limited"))
       else Normal {| x_results := map sample_result [0; 1; 2; 3; 4]%N;
                      x_requestId := lit "req-1";
                      x_costDollars := None |};
     fetchHTML := fun _ _ url =>
       if jsstring_eqb url (lit "https://down.example")
       then Throw (NonError (lit "connection refused"))
       else Normal {| f_content := repeat 97%N 2500; f_error := None |};
     cleanup := fun _ _ => Normal tt;
     zod_invalid_type := lit "Required";
     zod_too_small := lit "Number must be greater than or equal to 1";
     zod_too_big := lit "Number must be less than or equal to 100";
     zod_message := join (lit "; ") |}.

Definition sample_env : Env := sample_world sample_plan.

(** A plan that lists only the haiku tool, gives it no prompts, and carries
    search queries for a tool it does not list. *)
Definition idle_plan : Plan :=
  {| reasoning := lit "nothing to look up";
     tools := [generateHaikuTool];
     parameters :=
       {| p_webSearch := Some [lit "never searched"];
          p_fetchUrl := None;
          p_generateHaiku := Some [] |};
     expectedWorkflow := lit "answer directly" |}.

Definition sample_options (n : Q) : SearchOptionsInput :=
  {| in_numResults := Some (Fin n);
     in_searchType := Some neural;
     in_text := None;
     in_highlights := None;
     in_summary := None;
     in_startPublishedDate := Some (lit "2024-01-01");
     in_endPublishedDate := None;
     in_includeDomains := None;
     in_excludeDomains := None |}.

(** ** The rest of [src/tools/web-search.ts]: simpleWebSearch *)

Definition simpleWebSearch (env : Env) (query : jsstring)
  : M (list ExaSearchResult) :=
  response <- webSearch env query None ;;
  ret (results response).

(** ** The tool registry ([tools], beside the executors)

    Only the [execute] functions are modelled; the input schemas are checked
    by the caller of the registry. *)

Record WebSearchOutput := {
  o_results : list ExaSearchResult;
  o_requestId : jsstring;
  o_searchType : SearchType;
  o_cost : JsNumber
}.

Record FetchUrlOutput := {
  o_url : jsstring;
  o_content : jsstring;
  o_contentLength : nat
}.

Record HaikuOutput := {
  o_prompt : jsstring;
  o_haiku : jsstring;
  o_syllablePattern : jsstring;
  o_generated : bool
}.

Definition tools_webSearch_execute (env : Env) (query : jsstring)
  : M WebSearchOutput :=
  response <- webSearch env query None ;;
  ret {| o_results := results response;
         o_requestId := requestId response;
         o_searchType := resolvedSearchType response;
         o_cost := or_number (costDollars response) (Fin 0) |}.

Definition tools_fetchUrl_execute (env : Env) (url : jsstring)
  : M FetchUrlOutput :=
  content <- fetchUrl env url ;;
  ret {| o_url := url;
         o_content := content;
         o_contentLength := length content |}.

Definition tools_generateHaiku_execute (env : Env) (prompt : jsstring)
  : M HaikuOutput :=
  haiku <- generateHaiku env prompt ;;
  ret {| o_prompt := prompt;
         o_haiku := haiku;
         o_syllablePattern := lit "5-7-5";
         o_generated := true |}.

(** ** The rest of [cli.ts]: processQuery

    [String.prototype.toLowerCase] follows the Unicode case tables; it is a
    parameter of the model. *)

Definition exitCommands : list jsstring :=
  [lit "exit"; lit "quit"; lit "bye"; lit "q"].

(** [xs.includes(x)] on an array of strings. *)
Definition includes (xs : list jsstring) (x : jsstring) : bool :=
  existsb (jsstring_eqb x) xs.

Definition is_exit_command (toLowerCase : jsstring -> jsstring)
  (userQuery : jsstring) : bool :=
  includes exitCommands (trim (toLowerCase userQuery)).

Definition processQuery (toLowerCase : jsstring -> jsstring) (env : Env)
  (userQuery : jsstring) : M bool :=
  if is_exit_command toLowerCase userQuery
  then ret false
  else if jsstring_eqb (trim userQuery) []
  then ret true
  else
    try_catch
      (result <- agenticWorkflow env userQuery ;; ret true)
      (fun error =>
         narrated <- error_description error ;;
         ret true).

(** ** [examples/web-search-example.ts]: exampleWebSearch *)

Definition example_options : SearchOptionsInput :=
  {| in_numResults := Some (Fin 3);
     in_searchType := Some neural;
     in_text := Some true;
     in_highlights := Some true;
     in_summary := Some true;
     in_startPublishedDate := Some (lit "2024-01-01");
     in_endPublishedDate := None;
     in_includeDomains := None;
     in_excludeDomains := None |}.

Definition exampleWebSearch (env : Env) : M unit :=
  try_catch
    (simpleResults <- simpleWebSearch env (lit "Latest research in LLMs") ;;
     advancedResults <- webSearch env (lit "AI agents and automation")
                                  (Some example_options) ;;
     ret tt)
    (fun error => ret tt).

(** ** Vocabulary of the further properties *)

(** A field of the options object, when there is one. *)
Definition option_field {A} (options : option SearchOptionsInput)
  (field : SearchOptionsInput -> option A) : option A :=
  match options with
  | Some o => field o
  | None => None
  end.

(** The parsed options, for options that are accepted. *)
Definition parsed_options (options : option SearchOptionsInput)
  : option SearchOptions :=
  option_map
    (fun o => {| numResults := default (Fin 5) (in_numResults o);
                 searchType := default auto (in_searchType o);
                 text := default true (in_text o);
                 highlights := default true (in_highlights o);
                 summary := default true (in_summary o);
                 startPublishedDate := in_startPublishedDate o;
                 endPublishedDate := in_endPublishedDate o;
                 includeDomains := in_includeDomains o;
                 excludeDomains := in_excludeDomains o |})
    options.

Definition starts_with (prefix s : jsstring) : Prop :=
  exists rest, s = prefix ++ rest.

(** The message of the [Error] that webSearch makes of what it caught. *)
Definition wrapped_message (e : Thrown) : jsstring :=
  match e with
  | ZodErrorObj _ issues => lit "Validation error: " ++ join (lit ", ") issues
  | ErrorObj message => lit "Web search failed: " ++ message
  | NonError _ | Unprintable _ =>
      lit "An unexpected error occurred during web search"
  end.

Definition is_ExaSearch (ev : Event) : bool :=
  match ev with EvExaSearch _ _ => true | _ => false end.

Definition is_engine_event (ev : Event) : bool :=
  match ev with
  | EvEngineNew _ | EvFetchHTML _ _ | EvCleanup _ => true
  | _ => false
  end.

Definition is_model_event (ev : Event) : bool :=
  match ev with
  | EvGenerateObject _ _ | EvGenerateText _ _ => true
  | _ => false
  end.

Definition count (p : Event -> bool) (h : History) : nat :=
  length (filter p h).

(** The arguments a plan gives to the invocations of one tool, in order. *)
Definition arguments_of (t : ToolName) (invs : list (ToolName * jsstring))
  : list jsstring :=
  map snd (filter (fun inv => ToolName_eqb (fst inv) t) invs).

(** Engines used one after the other, one per URL: each is created, fetches
    its URL and is cleaned up before the next one is created. *)
Fixpoint engine_trace (engine : nat) (urls : list jsstring) : History :=
  match urls with
  | [] => []
  | url :: urls' =>
      [EvEngineNew engine; EvFetchHTML engine url; EvCleanup engine]
      ++ engine_trace (S engine) urls'
  end.

(** The calls one invocation makes, from the history it starts in. *)
Definition invocation_trace (env : Env) (inv : ToolName * jsstring)
  (h : History) : History :=
  match fst inv with
  | webSearchTool =>
      if apiKey_accepted env && negb (query_is_empty (snd inv))
      then [EvExaSearch (snd inv) (build_searchParams None)]
      else []
  | fetchUrlTool =>
      let engine := length (filter is_EngineNew h) in
      [EvEngineNew engine; EvFetchHTML engine (snd inv); EvCleanup engine]
  | generateHaikuTool =>
      [EvGenerateText "gpt-4.1-nano" (PromptText (haikuPrompt (snd inv)))]
  end.

Fixpoint run_trace (env : Env) (invs : list (ToolName * jsstring))
  (h : History) : History :=
  match invs with
  | [] => []
  | inv :: invs' =>
      invocation_trace env inv h
      ++ run_trace env invs' (h ++ invocation_trace env inv h)
  end.

Definition is_Cleanup (ev : Event) : bool :=
  match ev with EvCleanup _ => true | _ => false end.

(** An entry that is not a successful search. *)
Definition search_failed (r : ToolResult) : bool :=
  implb (ToolName_eqb (tool r) webSearchTool) (negb (is_success r)).

(** The shape of an entry: a payload of the kind of its tool, at most 3
    search results, and fetched content cut to 2000 code units beside the
    full length. *)
Definition entry_well_formed (r : ToolResult) : Prop :=
  match outcome r with
  | Result (SearchPayload top) => tool r = webSearchTool /\ length top <= 3
  | Result (FetchPayload content contentLength) =>
      tool r = fetchUrlTool /\ length content = Nat.min 2000 contentLength
  | Result (HaikuPayload _) => tool r = generateHaikuTool
  | Failure _ => True
  end.

(** The plan with another list of tools. *)
Definition with_tools (plan : Plan) (ts : list ToolName) : Plan :=
  {| reasoning := reasoning plan;
     tools := ts;
     parameters := parameters plan;
     expectedWorkflow := expectedWorkflow plan |}.

(** The sample world without its API key, and with a failing cleanup. *)
Definition keyless_world (key : option jsstring) : Env :=
  {| EXA_API_KEY := key;
     generateObject := generateObject sample_env;
     generateText := generateText sample_env;
     searchAndContents := searchAndContents sample_env;
     fetchHTML := fetchHTML sample_env;
     cleanup := cleanup sample_env;
     zod_invalid_type := zod_invalid_type sample_env;
     zod_too_small := zod_too_small sample_env;
     zod_too_big := zod_too_big sample_env;
     zod_message := zod_message sample_env |}.

Definition leaky_world : Env :=
  {| EXA_API_KEY := EXA_API_KEY sample_env;
     generateObject := generateObject sample_env;
     generateText := generateText sample_env;
     searchAndContents := searchAndContents sample_env;
     fetchHTML := fetchHTML sample_env;
     cleanup := fun _ _ => Throw (ErrorObj (lit "browser did not close"));
     zod_invalid_type := zod_invalid_type sample_env;
     zod_too_small := zod_too_small sample_env;
     zod_too_big := zod_too_big sample_env;
     zod_message := zod_message sample_env |}.

(** A world whose planner and models are down. *)
Definition offline_world : Env :=
  {| EXA_API_KEY := EXA_API_KEY sample_env;
     generateObject := fun _ _ => Throw (ErrorObj (lit "planner unreachable"));
     generateText := fun _ _ _ => Throw (NonError (lit "timeout"));
     searchAndContents := searchAndContents sample_env;
     fetchHTML := fetchHTML sample_env;
     cleanup := cleanup sample_env;
     zod_invalid_type := zod_invalid_type sample_env;
     zod_too_small := zod_too_small sample_env;
     zod_too_big := zod_too_big sample_env;
     zod_message := zod_message sample_env |}.

(** The sample world with its synthesis and haiku models down. *)
Definition mute_world : Env :=
  {| EXA_API_KEY := EXA_API_KEY sample_env;
     generateObject := generateObject sample_env;
     generateText := fun _ _ _ => Throw (ErrorObj (lit "model overloaded"));
     searchAndContents := searchAndContents sample_env;
     fetchHTML := fetchHTML sample_env;
     cleanup := cleanup sample_env;
     zod_invalid_type := zod_invalid_type sample_env;
     zod_too_small := zod_too_small sample_env;
     zod_too_big := zod_too_big sample_env;
     zod_message := zod_message sample_env |}.

(** ** Thrown values without a string conversion *)

(** The thrown value has a string conversion. *)
Definition has_string (e : Thrown) : Prop :=
  match e with
  | Unprintable _ => False
  | _ => True
  end.

Definition printable_completion {A} (c : Completion A) : Prop :=
  match c with
  | Throw e => has_string e
  | Normal _ => True
  end.

(** A world in which every value thrown by the outside has a string
    conversion. *)
Record printable_env (env : Env) : Prop := {
  printable_generateObject :
    forall h q, printable_completion (generateObject env h q);
  printable_generateText :
    forall h model p, printable_completion (generateText env h model p);
  printable_searchAndContents :
    forall h q sp, printable_completion (searchAndContents env h q sp);
  printable_fetchHTML :
    forall h engine url, printable_completion (fetchHTML env h engine url);
  printable_cleanup :
    forall h engine, printable_completion (cleanup env h engine)
}.

Record PrintableEnv := {
  penv :> Env;
  penv_printable : printable_env penv
}.

(** What a [catch] block that narrates an error and re-throws it ends up
    throwing: the error, or what its string conversion threw. *)
Definition rethrown (e : Thrown) : Thrown :=
  match e with
  | Unprintable t => t
  | _ => e
  end.

(** [Object.create(null)] as a thrown value: [String] of it throws a
    [TypeError]. *)
Definition nullPrototype : Thrown :=
  Unprintable (ErrorObj (lit "Cannot convert object to primitive value")).

(** The sample world whose haiku model rejects with [Object.create(null)]. *)
Definition opaque_model_world : Env :=
  {| EXA_API_KEY := EXA_API_KEY sample_env;
     generateObject := generateObject sample_env;
     generateText := fun _ model _ =>
       if String.eqb model "gpt-4.1-nano"
       then Throw nullPrototype
       else Normal (lit "final answer");
     searchAndContents := searchAndContents sample_env;
     fetchHTML := fetchHTML sample_env;
     cleanup := cleanup sample_env;
     zod_invalid_type := zod_invalid_type sample_env;
     zod_too_small := zod_too_small sample_env;
     zod_too_big := zod_too_big sample_env;
     zod_message := zod_message sample_env |}.

(** A plan with one fetch followed by one search. *)
Definition fetch_then_search_plan : Plan :=
  {| reasoning := lit "read, then search";
     tools := [fetchUrlTool; webSearchTool];
     parameters :=
       {| p_webSearch := Some [lit "good"];
          p_fetchUrl := Some [lit "https://example.com"];
          p_generateHaiku := None |};
     expectedWorkflow := lit "combine both" |}.

(** A world whose planner gives that plan and whose engine cleanup rejects
    with [Object.create(null)]. *)
Definition opaque_cleanup_world : Env :=
  {| EXA_API_KEY := EXA_API_KEY sample_env;
     generateObject := fun _ _ => Normal fetch_then_search_plan;
     generateText := generateText sample_env;
     searchAndContents := searchAndContents sample_env;
     fetchHTML := fetchHTML sample_env;
     cleanup := fun _ _ => Throw nullPrototype;
     zod_invalid_type := zod_invalid_type sample_env;
     zod_too_small := zod_too_small sample_env;
     zod_too_big := zod_too_big sample_env;
     zod_message := zod_message sample_env |}.

(** Lower-casing of the ASCII letters, used where a run needs a concrete
    [toLowerCase]. *)
Definition ascii_toLowerCase (s : jsstring) : jsstring :=
  map (fun c => if (65 <=? c) && (c <=? 90) then c + 32 else c)%N s.

(** * Properties *)

(** ** Laws of the computations *)

Lemma bind_ext {A B} (m : M A) (k k' : A -> M B) h :
  (forall a h', k a h' = k' a h') -> bind m k h = bind m k' h.
Proof. intros E. unfold bind. destruct (m h) as [[a|e] h']; auto. Qed.

Lemma for_of_app {A S} (body : A -> S -> M S) xs ys acc h :
  for_of (xs ++ ys) body acc h =
  (acc' <- for_of xs body acc ;; for_of ys body acc') h.
Proof.
  revert acc h. induction xs as [|x xs IH]; intros acc h; simpl.
  - reflexivity.
  - unfold bind. destruct (body x acc h) as [[a|e] h1].
    + rewrite IH. reflexivity.
    + reflexivity.
Qed.

Lemma for_of_map {A B S} (f : A -> B) (body : B -> S -> M S) xs acc h :
  for_of (map f xs) body acc h = for_of xs (fun x => body (f x)) acc h.
Proof.
  revert acc h. induction xs as [|x xs IH]; intros acc h; simpl; auto.
  apply bind_ext. intros; apply IH.
Qed.

(** ** The loop over the plan is the loop over its invocations *)

Lemma tool_body_flat env plan t acc h :
  tool_body env plan t acc h =
  for_of (map (pair t) (params_of plan t)) (invoke env) acc h.
Proof.
  unfold tool_body, params_of.
  destruct (param_lookup (parameters plan) t) as [ps|]; simpl.
  - rewrite for_of_map.
    destruct t; unfold when_tool; simpl.
    + change (fun x => invoke env (webSearchTool, x)) with (webSearch_step env).
      unfold bind, ret.
      destruct (for_of ps (webSearch_step env) acc h) as [[a|e] h1]; reflexivity.
    + change (fun x => invoke env (fetchUrlTool, x)) with (fetchUrl_step env).
      unfold bind, ret.
      destruct (for_of ps (fetchUrl_step env) acc h) as [[a|e] h1]; reflexivity.
    + change (fun x => invoke env (generateHaikuTool, x))
        with (generateHaiku_step env).
      reflexivity.
  - destruct t; reflexivity.
Qed.

Lemma for_of_tools_flat env plan ts acc h :
  for_of ts (tool_body env plan) acc h =
  for_of (flat_map (fun t => map (pair t) (params_of plan t)) ts) (invoke env) acc h.
Proof.
  revert acc h. induction ts as [|t ts IH]; intros acc h; simpl.
  - reflexivity.
  - rewrite for_of_app. unfold bind. rewrite tool_body_flat.
    destruct (for_of _ (invoke env) acc h) as [[a|e] h1]; auto.
Qed.

Lemma executeTools_flat env plan h :
  executeTools env plan h = for_of (invocations plan) (invoke env) [] h.
Proof. apply for_of_tools_flat. Qed.

Lemma invocation_count_length plan :
  length (invocations plan) = invocation_count plan.
Proof.
  unfold invocations, invocation_count.
  induction (tools plan) as [|t ts IH]; simpl; auto.
  rewrite length_app, length_map, IH. reflexivity.
Qed.

(** ** Describing a thrown value *)

Lemma error_description_has_string e h :
  has_string e -> exists d, error_description e h = (Normal d, h).
Proof. destruct e; simpl; intros P; [eexists; reflexivity .. | destruct P]. Qed.

Lemma rethrown_has_string e : has_string e -> rethrown e = e.
Proof. destruct e; simpl; intros P; [reflexivity .. | destruct P]. Qed.

(** ** The executors *)

Lemma generateHaiku_run env prompt h :
  let p := PromptText (haikuPrompt prompt) in
  generateHaiku env prompt h =
  (match generateText env h "gpt-4.1-nano" p with
   | Normal haiku => Normal haiku
   | Throw (Unprintable t) => Throw t
   | Throw _ => Normal fallbackHaiku
   end,
   h ++ [EvGenerateText "gpt-4.1-nano" p]).
Proof.
  unfold generateHaiku, try_catch, call, bind, ret; simpl.
  destruct (generateText env h _ _) as [haiku|[]]; reflexivity.
Qed.

Lemma fetchUrl_run env url h :
  let engine := length (filter is_EngineNew h) in
  let h1 := h ++ [EvEngineNew engine] in
  let h2 := h1 ++ [EvFetchHTML engine url] in
  fetchUrl env url h =
  (match cleanup env h2 engine with
   | Throw e => Throw e
   | Normal _ =>
       match fetchHTML env h1 engine url with
       | Normal result => Normal (f_content result)
       | Throw e => Throw (rethrown e)
       end
   end,
   h2 ++ [EvCleanup engine]).
Proof.
  unfold fetchUrl, new_HybridEngine, bind, try_finally, try_catch, call, ret, throw;
    simpl.
  destruct (fetchHTML env _ _ url) as [result|[]]; simpl;
    destruct (cleanup env _ _) as [[]|e']; reflexivity.
Qed.

Lemma try_catch_throws {A} (m : M A) handler h e h' :
  try_catch m handler h = (Throw e, h') ->
  exists e0 h0, m h = (Throw e0, h0) /\ handler e0 h0 = (Throw e, h').
Proof.
  unfold try_catch. destruct (m h) as [[a|e0] h0]; [discriminate|].
  intros E. exists e0, h0. auto.
Qed.

Lemma webSearch_throws_ErrorObj env query options h e h' :
  webSearch env query options h = (Throw e, h') -> exists m, e = ErrorObj m.
Proof.
  unfold webSearch. intros E.
  apply try_catch_throws in E. destruct E as (e0 & h0 & _ & C).
  destruct e0; simpl in C; injection C as <- _; eexists; reflexivity.
Qed.

(** In a world whose thrown values have a string conversion, so have the
    values thrown by fetchUrl, and generateHaiku does not throw. *)
Lemma printable_fetchUrl_run (env : PrintableEnv) url h :
  let engine := length (filter is_EngineNew h) in
  let h1 := h ++ [EvEngineNew engine] in
  let h2 := h1 ++ [EvFetchHTML engine url] in
  fetchUrl env url h =
  (match cleanup env h2 engine with
   | Throw e => Throw e
   | Normal _ =>
       match fetchHTML env h1 engine url with
       | Normal result => Normal (f_content result)
       | Throw e => Throw e
       end
   end,
   h2 ++ [EvCleanup engine]).
Proof.
  intros engine h1 h2. rewrite fetchUrl_run. fold engine h1 h2.
  pose proof (printable_fetchHTML _ (penv_printable env) h1 engine url) as P.
  destruct (fetchHTML env h1 engine url) as [result|e]; [reflexivity|].
  simpl in P. rewrite (rethrown_has_string e P). reflexivity.
Qed.

Lemma printable_fetchUrl_throws (env : PrintableEnv) url h e h' :
  fetchUrl env url h = (Throw e, h') -> has_string e.
Proof.
  rewrite printable_fetchUrl_run.
  pose proof (printable_cleanup _ (penv_printable env)
                ((h ++ [EvEngineNew (length (filter is_EngineNew h))])
                 ++ [EvFetchHTML (length (filter is_EngineNew h)) url])
                (length (filter is_EngineNew h))) as C.
  pose proof (printable_fetchHTML _ (penv_printable env)
                (h ++ [EvEngineNew (length (filter is_EngineNew h))])
                (length (filter is_EngineNew h)) url) as F.
  destruct (cleanup env _ _) as [[]|c]; simpl in C.
  - destruct (fetchHTML env _ _ url) as [result|f]; [discriminate|].
    intros E. injection E as <- _. exact F.
  - intros E. injection E as <- _. exact C.
Qed.

Lemma printable_generateHaiku_run (env : PrintableEnv) prompt h :
  let p := PromptText (haikuPrompt prompt) in
  generateHaiku env prompt h =
  (Normal match generateText env h "gpt-4.1-nano" p with
          | Normal haiku => haiku
          | Throw _ => fallbackHaiku
          end,
   h ++ [EvGenerateText "gpt-4.1-nano" p]).
Proof.
  intros p. rewrite generateHaiku_run. fold p.
  pose proof (printable_generateText _ (penv_printable env) h
                "gpt-4.1-nano"%string p) as P.
  destruct (generateText env h _ p) as [haiku|[]]; try reflexivity.
  destruct P.
Qed.

(** ** One entry per invocation *)

Lemma webSearch_step_ok env query acc h result h' :
  webSearch env query None h = (Normal result, h') ->
  webSearch_step env query acc h =
  (Normal (push acc {| tool := webSearchTool;
                       argument := query;
                       outcome := Result (SearchPayload (slice0 3 (results result))) |}),
   h').
Proof. intros E. unfold webSearch_step, try_catch, bind. rewrite E. reflexivity. Qed.

Lemma webSearch_step_err env query acc h e h' :
  webSearch env query None h = (Throw e, h') ->
  exists m,
    e = ErrorObj m /\
    webSearch_step env query acc h =
    (Normal (push acc {| tool := webSearchTool;
                         argument := query;
                         outcome := Failure m |}),
     h').
Proof.
  intros E. destruct (webSearch_throws_ErrorObj _ _ _ _ _ _ E) as (m & ->).
  exists m. split; [reflexivity|].
  unfold webSearch_step, try_catch, bind. rewrite E. reflexivity.
Qed.

Lemma fetchUrl_step_ok env url acc h content h' :
  fetchUrl env url h = (Normal content, h') ->
  fetchUrl_step env url acc h =
  (Normal (push acc {| tool := fetchUrlTool;
                       argument := url;
                       outcome := Result (FetchPayload (substring0 2000 content)
                                                       (length content)) |}),
   h').
Proof. intros E. unfold fetchUrl_step, try_catch, bind. rewrite E. reflexivity. Qed.

Lemma fetchUrl_step_err env url acc h e h' d :
  fetchUrl env url h = (Throw e, h') ->
  error_description e h' = (Normal d, h') ->
  fetchUrl_step env url acc h =
  (Normal (push acc {| tool := fetchUrlTool;
                       argument := url;
                       outcome := Failure d |}),
   h').
Proof.
  intros E D. unfold fetchUrl_step, try_catch, bind at 1. rewrite E.
  unfold bind. rewrite D. reflexivity.
Qed.

(** The [catch] of the dispatcher itself throws when the error it caught has
    no string conversion. *)
Lemma fetchUrl_step_abort env url acc h t h' :
  fetchUrl env url h = (Throw (Unprintable t), h') ->
  fetchUrl_step env url acc h = (Throw t, h').
Proof.
  intros E. unfold fetchUrl_step, try_catch, bind at 1. rewrite E. reflexivity.
Qed.

Lemma generateHaiku_step_ok env prompt acc h haiku h' :
  generateHaiku env prompt h = (Normal haiku, h') ->
  generateHaiku_step env prompt acc h =
  (Normal (push acc {| tool := generateHaikuTool;
                       argument := prompt;
                       outcome := Result (HaikuPayload haiku) |}),
   h').
Proof. intros E. unfold generateHaiku_step, try_catch, bind. rewrite E. reflexivity. Qed.

Lemma generateHaiku_step_err env prompt acc h e h' d :
  generateHaiku env prompt h = (Throw e, h') ->
  error_description e h' = (Normal d, h') ->
  generateHaiku_step env prompt acc h =
  (Normal (push acc {| tool := generateHaikuTool;
                       argument := prompt;
                       outcome := Failure d |}),
   h').
Proof.
  intros E D. unfold generateHaiku_step, try_catch, bind at 1. rewrite E.
  unfold bind. rewrite D. reflexivity.
Qed.

Lemma generateHaiku_step_run (env : PrintableEnv) prompt acc h :
  let p := PromptText (haikuPrompt prompt) in
  generateHaiku_step env prompt acc h =
  (Normal (push acc {| tool := generateHaikuTool;
                       argument := prompt;
                       outcome := Result (HaikuPayload
                         match generateText env h "gpt-4.1-nano" p with
                         | Normal haiku => haiku
                         | Throw _ => fallbackHaiku
                         end) |}),
   h ++ [EvGenerateText "gpt-4.1-nano" p]).
Proof.
  intros p. apply generateHaiku_step_ok. apply printable_generateHaiku_run.
Qed.

Lemma invoke_spec (env : PrintableEnv) inv acc h :
  exists r h',
    invoke env inv acc h = (Normal (acc ++ [r]), h') /\
    key r = inv /\ haiku_succeeds r = true.
Proof.
  destruct inv as [[] a]; unfold invoke; simpl.
  - destruct (webSearch env a None h) as [[res|e] h'] eqn:E.
    + rewrite (webSearch_step_ok _ _ acc _ _ _ E). eexists _, _; repeat split.
    + destruct (webSearch_step_err _ _ acc _ _ _ E) as (m & _ & ->).
      eexists _, _; repeat split.
  - destruct (fetchUrl env a h) as [[res|e] h'] eqn:E.
    + rewrite (fetchUrl_step_ok _ _ acc _ _ _ E). eexists _, _; repeat split.
    + destruct (error_description_has_string e h'
                  (printable_fetchUrl_throws env a h e h' E)) as (d & D).
      rewrite (fetchUrl_step_err _ _ acc _ _ _ _ E D). eexists _, _; repeat split.
  - rewrite generateHaiku_step_run. eexists _, _; repeat split.
Qed.

Lemma run_spec (env : PrintableEnv) invs : forall acc h,
  exists rs h',
    for_of invs (invoke env) acc h = (Normal (acc ++ rs), h') /\
    map key rs = invs /\ forallb haiku_succeeds rs = true.
Proof.
  induction invs as [|inv invs IH]; intros acc h; simpl.
  - exists [], h. rewrite app_nil_r. repeat split.
  - destruct (invoke_spec env inv acc h) as (r & h1 & E & K & P).
    destruct (IH (acc ++ [r]) h1) as (rs & h' & E' & K' & P').
    exists (r :: rs), h'. unfold bind. rewrite E, E'.
    rewrite <- app_assoc. simpl. rewrite K, K', P, P'. repeat split.
Qed.

Lemma executeTools_spec (env : PrintableEnv) plan h :
  exists rs h',
    executeTools env plan h = (Normal rs, h') /\
    map key rs = invocations plan /\ forallb haiku_succeeds rs = true.
Proof.
  rewrite executeTools_flat.
  destruct (run_spec env (invocations plan) [] h) as (rs & h' & E & K & P).
  exists rs, h'. auto.
Qed.

(** The sample worlds throw only values that have a string conversion. *)
Lemma sample_world_printable plan : printable_env (sample_world plan).
Proof.
  split; intros; simpl.
  - exact I.
  - destruct (String.eqb model "gpt-4.1-nano"); exact I.
  - destruct (jsstring_eqb q (lit "bad")); exact I.
  - destruct (jsstring_eqb url (lit "https://down.example")); exact I.
  - exact I.
Qed.

Lemma keyless_world_printable key : printable_env (keyless_world key).
Proof.
  split; intros; simpl.
  - exact I.
  - destruct (String.eqb model "gpt-4.1-nano"); exact I.
  - destruct (jsstring_eqb q (lit "bad")); exact I.
  - destruct (jsstring_eqb url (lit "https://down.example")); exact I.
  - exact I.
Qed.

Lemma agenticWorkflow_run env userQuery h plan toolResults h' :
  generateObject env h userQuery = Normal plan ->
  executeTools env plan (h ++ [planning_call userQuery]) = (Normal toolResults, h') ->
  agenticWorkflow env userQuery h =
  (match generateText env h' "gpt-4.1-mini"
           (PromptSynthesis (reasoning plan) (expectedWorkflow plan)
                            userQuery toolResults) with
   | Normal finalResponse =>
       Normal {| w_plan := plan;
                 w_toolResults := toolResults;
                 w_response := finalResponse |}
   | Throw e => Throw e
   end,
   h' ++ [synthesis_call plan userQuery toolResults]).
Proof.
  intros P E. unfold agenticWorkflow, bind, call at 1. rewrite P.
  unfold planning_call in E. rewrite E. unfold call, ret, synthesis_call.
  destruct (generateText env h' _ _); reflexivity.
Qed.

(** ** Runs in any world *)

Lemma invoke_normal env inv acc h rs' h' :
  invoke env inv acc h = (Normal rs', h') ->
  exists r, rs' = acc ++ [r] /\ key r = inv /\ entry_well_formed r.
Proof.
  destruct inv as [[] a]; unfold invoke; cbn [fst snd]; intros E.
  - destruct (webSearch env a None h) as [[res|e] h1] eqn:W.
    + rewrite (webSearch_step_ok _ _ acc _ _ _ W) in E.
      remember (slice0 3 (results res)) as top eqn:T.
      injection E as <- _. eexists. split; [reflexivity|].
      split; [reflexivity|]. split; [reflexivity|]. subst top. unfold slice0.
      cbn [outcome]. rewrite length_firstn. apply Nat.le_min_l.
    + destruct (webSearch_step_err _ _ acc _ _ _ W) as (m & _ & S).
      rewrite S in E. injection E as <- _. eexists. repeat split.
  - destruct (fetchUrl env a h) as [[content|e] h1] eqn:F.
    + rewrite (fetchUrl_step_ok _ _ acc _ _ _ F) in E.
      remember (substring0 2000 content) as cut eqn:T.
      injection E as <- _. eexists. split; [reflexivity|].
      split; [reflexivity|]. split; [reflexivity|]. subst cut.
      apply length_firstn.
    + unfold fetchUrl_step, try_catch, bind at 1 in E. rewrite F in E.
      destruct e; simpl in E; try discriminate E;
        injection E as <- _; eexists; repeat split.
  - destruct (generateHaiku env a h) as [[haiku|e] h1] eqn:G.
    + rewrite (generateHaiku_step_ok _ _ acc _ _ _ G) in E.
      injection E as <- _. eexists. repeat split.
    + unfold generateHaiku_step, try_catch, bind at 1 in E. rewrite G in E.
      destruct e; simpl in E; try discriminate E;
        injection E as <- _; eexists; repeat split.
Qed.

(** The dispatcher throws only from its own [catch], on an error of fetchUrl
    or generateHaiku that has no string conversion. *)
Lemma invoke_throws env inv acc h e h' :
  invoke env inv acc h = (Throw e, h') ->
  (exists url, inv = (fetchUrlTool, url) /\
               fetchUrl env url h = (Throw (Unprintable e), h')) \/
  (exists prompt, inv = (generateHaikuTool, prompt) /\
                  generateHaiku env prompt h = (Throw (Unprintable e), h')).
Proof.
  destruct inv as [[] a]; unfold invoke; cbn [fst snd]; intros E.
  - exfalso. destruct (webSearch env a None h) as [[res|e0] h1] eqn:W.
    + rewrite (webSearch_step_ok _ _ acc _ _ _ W) in E. discriminate E.
    + destruct (webSearch_step_err _ _ acc _ _ _ W) as (m & _ & S).
      rewrite S in E. discriminate E.
  - left. exists a. split; [reflexivity|].
    destruct (fetchUrl env a h) as [[content|e0] h1] eqn:F.
    + rewrite (fetchUrl_step_ok _ _ acc _ _ _ F) in E. discriminate E.
    + unfold fetchUrl_step, try_catch, bind at 1 in E. rewrite F in E.
      destruct e0; simpl in E; try discriminate E.
      injection E as <- <-. reflexivity.
  - right. exists a. split; [reflexivity|].
    destruct (generateHaiku env a h) as [[haiku|e0] h1] eqn:G.
    + rewrite (generateHaiku_step_ok _ _ acc _ _ _ G) in E. discriminate E.
    + unfold generateHaiku_step, try_catch, bind at 1 in E. rewrite G in E.
      destruct e0; simpl in E; try discriminate E.
      injection E as <- <-. reflexivity.
Qed.

Lemma run_normal env invs : forall acc h rs' h',
  for_of invs (invoke env) acc h = (Normal rs', h') ->
  exists rs,
    rs' = acc ++ rs /\ map key rs = invs /\ Forall entry_well_formed rs.
Proof.
  induction invs as [|inv invs IH]; intros acc h rs' h' E; simpl in E.
  - injection E as <- _. exists []. rewrite app_nil_r. repeat split. constructor.
  - unfold bind in E.
    destruct (invoke env inv acc h) as [[a|e] h1] eqn:V; [|discriminate E].
    destruct (invoke_normal env inv acc h a h1 V) as (r & -> & K & F).
    destruct (IH _ _ _ _ E) as (rs & -> & M & Fs).
    exists (r :: rs). rewrite <- app_assoc. simpl. rewrite K, M.
    repeat split. constructor; assumption.
Qed.

Lemma run_throws env invs : forall acc h e h',
  for_of invs (invoke env) acc h = (Throw e, h') ->
  exists pre inv post acc_i h_i,
    invs = pre ++ inv :: post /\
    for_of pre (invoke env) acc h = (Normal acc_i, h_i) /\
    ((exists url, inv = (fetchUrlTool, url) /\
                  fetchUrl env url h_i = (Throw (Unprintable e), h')) \/
     (exists prompt, inv = (generateHaikuTool, prompt) /\
                     generateHaiku env prompt h_i = (Throw (Unprintable e), h'))).
Proof.
  induction invs as [|inv invs IH]; intros acc h e h' E; simpl in E.
  - discriminate E.
  - unfold bind in E.
    destruct (invoke env inv acc h) as [[a|e0] h1] eqn:V.
    + destruct (IH _ _ _ _ E) as (pre & inv' & post & acc_i & h_i & -> & Pre & C).
      exists (inv :: pre), inv', post, acc_i, h_i. split; [reflexivity|].
      split; [|exact C]. simpl. unfold bind. rewrite V. exact Pre.
    + injection E as <- <-.
      exists [], inv, invs, acc, h. split; [reflexivity|].
      split; [reflexivity|]. exact (invoke_throws env inv acc h e0 h1 V).
Qed.

Lemma executeTools_normal env plan h rs h' :
  executeTools env plan h = (Normal rs, h') ->
  map key rs = invocations plan /\ Forall entry_well_formed rs.
Proof.
  rewrite executeTools_flat. intros E.
  destruct (run_normal env (invocations plan) [] h rs h' E) as (rs0 & -> & K & F).
  auto.
Qed.

Lemma agenticWorkflow_abort env userQuery h plan e h' :
  generateObject env h userQuery = Normal plan ->
  executeTools env plan (h ++ [planning_call userQuery]) = (Throw e, h') ->
  agenticWorkflow env userQuery h = (Throw e, h').
Proof.
  intros P E. unfold agenticWorkflow, bind, call at 1. rewrite P.
  unfold planning_call in E. rewrite E. reflexivity.
Qed.

(** ** Runs in the sample world *)

Example sample_workflow_tools :
  map (fun r => (tool r, is_success r))
      (match fst (agenticWorkflow sample_env (lit "q") []) with
       | Normal w => w_toolResults w
       | Throw _ => []
       end) =
  [(webSearchTool, false); (webSearchTool, true);
   (fetchUrlTool, false); (fetchUrlTool, true);
   (generateHaikuTool, true)].
Proof. vm_compute. reflexivity. Qed.

Example sample_search_error :
  fst (webSearch sample_env (lit "bad") None []) =
  Throw (ErrorObj (lit "Web search failed: rate limited")).
Proof. vm_compute. reflexivity. Qed.

Example sample_search_requests_three :
  snd (webSearch sample_env (lit "good") (Some (sample_options 1)) []) =
  [EvExaSearch (lit "good")
     {| sp_numResults := Fin 3; sp_type := neural; sp_text := true;
        sp_highlights := true; sp_summary := true;
        sp_startPublishedDate := Some (lit "2024-01-01");
        sp_endPublishedDate := None;
        sp_includeDomains := None; sp_excludeDomains := None |}].
Proof. vm_compute. reflexivity. Qed.

Example sample_search_rejects_zero :
  webSearch sample_env (lit "good") (Some (sample_options 0)) [] =
  (Throw (ErrorObj (lit "Validation error: Number must be greater than or equal to 1")),
   []).
Proof. vm_compute. reflexivity. Qed.

Example trim_example :
  trim (lit "  a b " ++ LF) = lit "a b".
Proof. vm_compute. reflexivity. Qed.

(** ** Counting and ordering the tool results *)

(** C1: the dispatch loop completes normally with as many tool results as
    the sum, over the occurrences of tools in [tools], of the length of their
    parameter list (a missing list counting as empty); with an empty [tools]
    it yields no tool result and calls nothing. The loop is sure to complete
    in a world whose thrown values all have a string conversion; in any
    world, whenever it completes, the number of tool results is that sum. *)
Theorem toolResults_count (env : PrintableEnv) plan h :
  (exists toolResults h',
     executeTools env plan h = (Normal toolResults, h') /\
     length toolResults = invocation_count plan) /\
  executeTools env {| reasoning := reasoning plan;
                      tools := [];
                      parameters := parameters plan;
                      expectedWorkflow := expectedWorkflow plan |} h
  = (Normal [], h) /\
  (forall (world : Env) toolResults h',
     executeTools world plan h = (Normal toolResults, h') ->
     length toolResults = invocation_count plan).
Proof.
  split; [|split; [reflexivity|]].
  - destruct (executeTools_spec env plan h) as (rs & h' & E & K & _).
    exists rs, h'. split; [exact E|].
    rewrite <- invocation_count_length, <- K. symmetry. apply length_map.
  - intros world rs h' E.
    destruct (executeTools_normal world plan h rs h' E) as (K & _).
    rewrite <- invocation_count_length, <- K. symmetry. apply length_map.
Qed.

Lemma toolResults_count_witness :
  exists toolResults h',
    executeTools opaque_model_world sample_plan [] = (Normal toolResults, h') /\
    length toolResults = 5.
Proof.
  destruct (executeTools opaque_model_world sample_plan []) as [[rs|e] h'] eqn:E;
    [|vm_compute in E; discriminate E].
  exists rs, h'. split; [reflexivity|].
  apply (proj2 (proj2 (toolResults_count
                         {| penv := sample_env;
                            penv_printable := sample_world_printable sample_plan |}
                         sample_plan []))
               opaque_model_world rs h' E).
Defined.

(** C2: the tool results are, entry by entry, the invocations of the plan in
    flattened order: the i-th result carries the tool and the argument of
    the i-th invocation, whatever the outside world answers; and it is this
    list that the workflow hands to the synthesis call. The loop is sure to
    complete in a world whose thrown values all have a string conversion; in
    any world, whenever it completes, its results are in that order. *)
Theorem toolResults_order (env : PrintableEnv) plan h :
  (exists toolResults h',
     executeTools env plan h = (Normal toolResults, h') /\
     map key toolResults = invocations plan /\
     forall i, option_map key (nth_error toolResults i)
               = nth_error (invocations plan) i) /\
  (forall userQuery,
     generateObject env h userQuery = Normal plan ->
     exists toolResults h',
       snd (agenticWorkflow env userQuery h)
       = h' ++ [synthesis_call plan userQuery toolResults] /\
       map key toolResults = invocations plan) /\
  (forall (world : Env) toolResults h',
     executeTools world plan h = (Normal toolResults, h') ->
     map key toolResults = invocations plan).
Proof.
  split; [|split].
  - destruct (executeTools_spec env plan h) as (rs & h' & E & K & _).
    exists rs, h'. repeat split; auto.
    intros i. rewrite <- K. symmetry. apply nth_error_map.
  - intros userQuery P.
    destruct (executeTools_spec env plan (h ++ [planning_call userQuery]))
      as (rs & h' & E & K & _).
    exists rs, h'. rewrite (agenticWorkflow_run _ _ _ _ _ _ P E). auto.
  - intros world rs h' E. apply (executeTools_normal world plan h rs h' E).
Qed.

Lemma toolResults_order_witness :
  let userQuery := lit "what is new?" in
  generateObject sample_env [] userQuery = Normal sample_plan /\
  exists toolResults h',
    snd (agenticWorkflow sample_env userQuery [])
    = h' ++ [synthesis_call sample_plan userQuery toolResults] /\
    map key toolResults
    = [(webSearchTool, lit "bad"); (webSearchTool, lit "good");
       (fetchUrlTool, lit "https://down.example");
       (fetchUrlTool, lit "https://example.com");
       (generateHaikuTool, lit "the sea")].
Proof.
  intros userQuery. split; [reflexivity|].
  apply (proj1 (proj2 (toolResults_order
                         {| penv := sample_env;
                            penv_printable := sample_world_printable sample_plan |}
                         sample_plan [])) userQuery).
  reflexivity.
Defined.

(** ** The haiku executor *)

(** C3 does not hold of the code: when the model call throws a value that
    has no string conversion, the [catch] block of generateHaiku throws what
    the conversion threw (a [TypeError] for [Object.create(null)]) while it
    narrates the error, before it reaches the fallback; generateHaiku then
    throws to its caller. *)
Theorem generateHaiku_throws_from_its_catch env prompt h t :
  let p := PromptText (haikuPrompt prompt) in
  generateText env h "gpt-4.1-nano" p = Throw (Unprintable t) ->
  generateHaiku env prompt h = (Throw t, h ++ [EvGenerateText "gpt-4.1-nano" p]).
Proof.
  intros p G. rewrite generateHaiku_run. fold p. rewrite G. reflexivity.
Qed.

Lemma generateHaiku_throws_from_its_catch_witness :
  let prompt := lit "the sea" in
  let p := PromptText (haikuPrompt prompt) in
  let typeError := lit "Cannot convert object to primitive value" in
  generateText opaque_model_world [] "gpt-4.1-nano" p = Throw nullPrototype /\
  generateHaiku opaque_model_world prompt []
  = (Throw (ErrorObj typeError), [] ++ [EvGenerateText "gpt-4.1-nano" p]) /\
  generateHaiku_step opaque_model_world prompt [] []
  = (Normal [{| tool := generateHaikuTool;
                argument := prompt;
                outcome := Failure typeError |}],
     [EvGenerateText "gpt-4.1-nano" p]).
Proof.
  intros prompt p typeError. split; [reflexivity|].
  assert (E : generateHaiku opaque_model_world prompt []
              = (Throw (ErrorObj typeError), [] ++ [EvGenerateText "gpt-4.1-nano" p])).
  { apply (generateHaiku_throws_from_its_catch opaque_model_world prompt []
             (ErrorObj typeError)). reflexivity. }
  split; [exact E|].
  apply (generateHaiku_step_err opaque_model_world prompt [] [] _ _ typeError E).
  reflexivity.
Defined.

(** ** The fetch executor *)

(** C6: fetchUrl creates its engine first, then fetches, then calls cleanup
    on that engine, once, whether the fetch succeeded or threw; with a normal
    cleanup it returns the content, or re-throws the error of the fetch (or
    what the narration of that error threw, when the error has no string
    conversion). *)
Theorem fetchUrl_releases_once env url h :
  let engine := length (filter is_EngineNew h) in
  let h1 := h ++ [EvEngineNew engine] in
  let h2 := h1 ++ [EvFetchHTML engine url] in
  snd (fetchUrl env url h)
  = h ++ [EvEngineNew engine; EvFetchHTML engine url; EvCleanup engine] /\
  cleanup_count engine (snd (fetchUrl env url h)) = S (cleanup_count engine h) /\
  fst (fetchUrl env url h)
  = match cleanup env h2 engine with
    | Throw e => Throw e
    | Normal _ =>
        match fetchHTML env h1 engine url with
        | Normal result => Normal (f_content result)
        | Throw e => Throw (rethrown e)
        end
    end.
Proof.
  intros engine h1 h2. rewrite fetchUrl_run. cbn [fst snd]. fold engine h1 h2.
  assert (H : h2 ++ [EvCleanup engine]
              = h ++ [EvEngineNew engine; EvFetchHTML engine url; EvCleanup engine]).
  { unfold h2, h1. rewrite <- !app_assoc. reflexivity. }
  rewrite H. repeat split.
  unfold cleanup_count. rewrite filter_app, length_app. cbn.
  rewrite Nat.eqb_refl. cbn. lia.
Qed.

(** C7: when the fetch succeeds, the entry added by the dispatcher holds the
    first 2000 characters of the content and, as contentLength, the length
    of the whole content. *)
Theorem fetch_result_truncated env url acc h content h' :
  fetchUrl env url h = (Normal content, h') ->
  fetchUrl_step env url acc h
  = (Normal (push acc {| tool := fetchUrlTool;
                         argument := url;
                         outcome := Result (FetchPayload (substring0 2000 content)
                                                         (length content)) |}),
     h') /\
  length (substring0 2000 content) = Nat.min 2000 (length content) /\
  substring0 2000 content ++ skipn 2000 content = content.
Proof.
  intros E. split; [apply fetchUrl_step_ok; exact E|].
  unfold substring0. split; [apply length_firstn | apply firstn_skipn].
Qed.

Lemma fetch_result_truncated_witness :
  let url := lit "https://example.com" in
  let content := repeat 97%N 2500 in
  let h' := [EvEngineNew 0; EvFetchHTML 0 url; EvCleanup 0] in
  fetchUrl sample_env url [] = (Normal content, h') /\
  fetchUrl_step sample_env url [] []
  = (Normal [{| tool := fetchUrlTool;
                argument := url;
                outcome := Result (FetchPayload (repeat 97%N 2000) 2500) |}],
     h').
Proof.
  intros url content h'.
  assert (E : fetchUrl sample_env url [] = (Normal content, h'))
    by (vm_compute; reflexivity).
  split; [exact E|].
  destruct (fetch_result_truncated sample_env url [] [] content h' E) as (R & _).
  rewrite R. vm_compute. reflexivity.
Defined.

(** ** Tools that are not used *)

Lemma in_invocations plan t a :
  In (t, a) (invocations plan) ->
  In t (tools plan) /\ In a (params_of plan t).
Proof.
  unfold invocations. rewrite in_flat_map. intros (t' & I & J).
  apply in_map_iff in J. destruct J as (a' & Q & J). inversion Q; subst. auto.
Qed.

Lemma ToolName_eqb_eq a b : ToolName_eqb a b = true <-> a = b.
Proof. destruct a, b; simpl; split; congruence. Qed.

Lemma unused_tool_absent plan t rs :
  ~ In t (tools plan) \/
  param_lookup (parameters plan) t = None \/
  param_lookup (parameters plan) t = Some [] ->
  map key rs = invocations plan ->
  forallb (not_of_tool t) rs = true.
Proof.
  intros U K. apply forallb_forall. intros r I. unfold not_of_tool.
  destruct (ToolName_eqb (tool r) t) eqn:T; [exfalso | reflexivity].
  apply ToolName_eqb_eq in T.
  assert (J : In (t, argument r) (invocations plan)).
  { rewrite <- K, <- T. apply (in_map key), I. }
  apply in_invocations in J. destruct J as (J1 & J2). unfold params_of in J2.
  destruct U as [U|[U|U]]; [auto | rewrite U in J2 .. ]; exact J2.
Qed.

(** C8: a tool that is not listed in [tools], or that is listed with no
    parameter list or an empty one, has no entry among the tool results; the
    loop completes normally and the workflow goes on to the synthesis call
    with these results. The loop is sure to complete in a world whose thrown
    values all have a string conversion; in any world, whenever it
    completes, such a tool has no entry. *)
Theorem unused_tool_contributes_nothing (env : PrintableEnv) plan t :
  ~ In t (tools plan) \/
  param_lookup (parameters plan) t = None \/
  param_lookup (parameters plan) t = Some [] ->
  (forall h, exists toolResults h',
     executeTools env plan h = (Normal toolResults, h') /\
     forallb (not_of_tool t) toolResults = true) /\
  (forall userQuery h,
     generateObject env h userQuery = Normal plan ->
     exists toolResults h',
       snd (agenticWorkflow env userQuery h)
       = h' ++ [synthesis_call plan userQuery toolResults] /\
       forallb (not_of_tool t) toolResults = true) /\
  (forall (world : Env) h toolResults h',
     executeTools world plan h = (Normal toolResults, h') ->
     forallb (not_of_tool t) toolResults = true).
Proof.
  intros U. split; [|split]; [| |
    intros world h rs h' E;
    exact (unused_tool_absent plan t rs U
             (proj1 (executeTools_normal world plan h rs h' E)))].
  - intros h. destruct (executeTools_spec env plan h) as (rs & h' & E & K & _).
    exists rs, h'. split; [exact E | exact (unused_tool_absent plan t rs U K)].
  - intros userQuery h P.
    destruct (executeTools_spec env plan (h ++ [planning_call userQuery]))
      as (rs & h' & E & K & _).
    exists rs, h'. rewrite (agenticWorkflow_run _ _ _ _ _ _ P E).
    split; [reflexivity | exact (unused_tool_absent plan t rs U K)].
Qed.

Lemma unused_tool_contributes_nothing_witness :
  let env := sample_world idle_plan in
  param_lookup (parameters idle_plan) generateHaikuTool = Some [] /\
  (forall h, exists toolResults h',
     executeTools env idle_plan h = (Normal toolResults, h') /\
     forallb (not_of_tool generateHaikuTool) toolResults = true) /\
  (forall userQuery h,
     generateObject env h userQuery = Normal idle_plan ->
     exists toolResults h',
       snd (agenticWorkflow env userQuery h)
       = h' ++ [synthesis_call idle_plan userQuery toolResults] /\
       forallb (not_of_tool generateHaikuTool) toolResults = true) /\
  (forall (world : Env) h toolResults h',
     executeTools world idle_plan h = (Normal toolResults, h') ->
     forallb (not_of_tool generateHaikuTool) toolResults = true).
Proof.
  intros env. split; [reflexivity|].
  apply (unused_tool_contributes_nothing
           {| penv := env; penv_printable := sample_world_printable idle_plan |}
           idle_plan generateHaikuTool).
  right; right. reflexivity.
Defined.

Example idle_plan_run :
  agenticWorkflow (sample_world idle_plan) (lit "hello") []
  = (Normal {| w_plan := idle_plan;
               w_toolResults := [];
               w_response := lit "final answer" |},
     [planning_call (lit "hello"); synthesis_call idle_plan (lit "hello") []]).
Proof. vm_compute. reflexivity. Qed.

(** ** The search executor *)

Lemma trimStart_blank s : forallb is_whitespace s = true -> trimStart s = [].
Proof.
  induction s as [|c s IH]; simpl; [reflexivity|].
  intros H. apply andb_true_iff in H. destruct H as (Hc & Hs).
  rewrite Hc. auto.
Qed.

Lemma query_is_empty_blank s :
  forallb is_whitespace s = true -> query_is_empty s = true.
Proof.
  intros H. unfold query_is_empty, trim. rewrite (trimStart_blank s H).
  apply orb_true_r.
Qed.

(** C9: on a query that is empty or made of white space only, webSearch
    throws an [Error] whose message is "Web search failed: Search query
    cannot be empty", and the history is unchanged: nothing was asked of the
    search provider. *)
Theorem webSearch_rejects_blank_query env query options h :
  forallb is_whitespace query = true ->
  webSearch env query options h
  = (Throw (ErrorObj (lit "Web search failed: Search query cannot be empty")), h).
Proof.
  intros B. unfold webSearch, try_catch.
  rewrite (query_is_empty_blank query B). reflexivity.
Qed.

Lemma webSearch_rejects_blank_query_witness :
  let query := lit "  " ++ [9; 10; 13; 160; 8232; 12288; 65279]%N in
  forallb is_whitespace query = true /\
  webSearch sample_env query (Some (sample_options 4)) []
  = (Throw (ErrorObj (lit "Web search failed: Search query cannot be empty")), []).
Proof.
  intros query. split; [reflexivity|].
  apply (webSearch_rejects_blank_query sample_env query); reflexivity.
Defined.

Lemma webSearch_catch_throws e h :
  exists e', webSearch_catch e h = (Throw e', h).
Proof. destruct e; eexists; reflexivity. Qed.

Lemma apiKey_accepted_parse env h :
  apiKey_accepted env = true ->
  exists apiKey, ExaApiKeySchema_parse env (EXA_API_KEY env) h = (Normal apiKey, h).
Proof.
  unfold apiKey_accepted, ExaApiKeySchema_parse.
  destruct (EXA_API_KEY env) as [s|]; [|discriminate].
  destruct (length s <? 1)%nat; [discriminate|]. intros _. exists s. reflexivity.
Qed.

Lemma options_accepted_parse env o h :
  options_accepted env (Some o) = true ->
  exists po, SearchOptionsSchema_parse env o h = (Normal po, h) /\
             numResults po = default (Fin 5) (in_numResults o).
Proof.
  unfold options_accepted, SearchOptionsSchema_parse.
  destruct (numResults_issues env _); [|discriminate].
  intros _. eexists. split; reflexivity.
Qed.

(** What webSearch asks of the provider once its inputs are accepted. *)
Lemma webSearch_request env query options h :
  query_is_empty query = false ->
  apiKey_accepted env = true ->
  options_accepted env options = true ->
  exists parsedOptions,
    snd (webSearch env query options h)
    = h ++ [EvExaSearch query (build_searchParams parsedOptions)] /\
    option_map numResults parsedOptions
    = option_map (fun o => default (Fin 5) (in_numResults o)) options.
Proof.
  intros Q K O. unfold webSearch, try_catch. rewrite Q. unfold bind at 1.
  destruct (apiKey_accepted_parse env h K) as (apiKey & ->).
  destruct options as [o|].
  - destruct (options_accepted_parse env o h O) as (po & P & N).
    exists (Some po). unfold bind, call, ret. rewrite P. simpl.
    destruct (searchAndContents env h query _); simpl.
    + rewrite N. auto.
    + destruct (webSearch_catch_throws e (h ++ [EvExaSearch query (build_searchParams (Some po))]))
        as (e' & ->). rewrite N. auto.
  - exists None. unfold bind, call, ret. simpl.
    destruct (searchAndContents env h query _); simpl; [auto|].
    destruct (webSearch_catch_throws e (h ++ [EvExaSearch query (build_searchParams None)]))
      as (e' & ->). auto.
Qed.

Lemma Qle_bool_false x y : Qle_bool x y = false -> (y < x)%Q.
Proof.
  intros H. apply Qnot_le_lt. intros L. apply Qle_bool_iff in L. congruence.
Qed.

Lemma accepted_number env n :
  numResults_issues env n = [] -> exists q, n = Fin q /\ (1 <= q <= 100)%Q.
Proof.
  destruct n as [q| | |]; simpl; try discriminate.
  destruct (Qle_bool 1 q) eqn:A; [|discriminate].
  destruct (Qle_bool q 100) eqn:B; [|discriminate].
  intros _. exists q. apply Qle_bool_iff in A, B. auto.
Qed.

Lemma clamp_accepted q :
  (1 <= q)%Q ->
  exists n,
    Math_min (Math_max (or_number (Some (Fin q)) (Fin 5)) (Fin 3)) (Fin 5) = Fin n /\
    (3 <= n <= 5)%Q /\
    (q < 3 -> n == 3)%Q /\ (5 < q -> n == 5)%Q /\ (3 <= q <= 5 -> n == q)%Q.
Proof.
  intros L. unfold or_number, truthy_number.
  destruct (Qeq_bool q 0) eqn:Z.
  { apply Qeq_bool_iff in Z. lra. }
  cbn [negb Math_max].
  destruct (Qle_bool q 3) eqn:A; cbn [Math_min].
  - apply Qle_bool_iff in A. eexists; split; [reflexivity|].
    change (if Qle_bool 3 5 then 3 else 5)%Q with 3%Q.
    repeat split; intros; lra.
  - apply Qle_bool_false in A.
    destruct (Qle_bool q 5) eqn:B.
    + apply Qle_bool_iff in B. eexists; split; [reflexivity|].
      repeat split; intros; lra.
    + apply Qle_bool_false in B. eexists; split; [reflexivity|].
      repeat split; intros; lra.
Qed.

(** C10: whenever webSearch gets as far as the provider (query not blank,
    API key and options accepted by their schemas), the number of results it
    asks for lies in [3, 5]: a requested number below 3 becomes 3, one above
    5 becomes 5, one in between is kept, and a missing one becomes 5. *)
Theorem numResults_clamped env query options h :
  query_is_empty query = false ->
  apiKey_accepted env = true ->
  options_accepted env options = true ->
  exists searchParams n,
    snd (webSearch env query options h) = h ++ [EvExaSearch query searchParams] /\
    sp_numResults searchParams = Fin n /\
    (3 <= n <= 5)%Q /\
    match requested_numResults options with
    | None => (n == 5)%Q
    | Some (Fin q) =>
        (q < 3 -> n == 3)%Q /\ (5 < q -> n == 5)%Q /\ (3 <= q <= 5 -> n == q)%Q
    | Some _ => False
    end.
Proof.
  intros Q K O.
  destruct (webSearch_request env query options h Q K O) as (po & E & N).
  exists (build_searchParams po).
  destruct options as [o|]; destruct po as [po|]; try discriminate N.
  - simpl in N. injection N as N.
    unfold options_accepted in O.
    destruct (numResults_issues env (default (Fin 5) (in_numResults o))) eqn:I;
      [|discriminate O].
    destruct (accepted_number env _ I) as (q & Hq & L1 & L100).
    destruct (clamp_accepted q L1) as (n & C & B & Lo & Hi & Mid).
    exists n. split; [exact E|].
    split.
    { cbn [build_searchParams sp_numResults]. unfold clamp_numResults.
      cbn [option_map]. rewrite N, Hq. exact C. }
    split; [exact B|].
    unfold requested_numResults.
    destruct (in_numResults o) as [[q'| | |]|]; simpl in Hq; try discriminate Hq.
    + injection Hq as ->. auto.
    + injection Hq as <-. apply Mid. lra.
  - exists 5%Q. split; [exact E|]. split; [reflexivity|].
    split; [lra | reflexivity].
Qed.

Lemma numResults_clamped_witness :
  let query := lit "good" in
  let options := Some (sample_options 1) in
  query_is_empty query = false /\
  apiKey_accepted sample_env = true /\
  options_accepted sample_env options = true /\
  exists searchParams n,
    snd (webSearch sample_env query options [])
    = [] ++ [EvExaSearch query searchParams] /\
    sp_numResults searchParams = Fin n /\
    (3 <= n <= 5)%Q /\
    match requested_numResults options with
    | None => (n == 5)%Q
    | Some (Fin q) =>
        (q < 3 -> n == 3)%Q /\ (5 < q -> n == 5)%Q /\ (3 <= q <= 5 -> n == q)%Q
    | Some _ => False
    end.
Proof.
  intros query options. repeat split; try reflexivity.
  apply (numResults_clamped sample_env query options []); reflexivity.
Defined.

(** ** Who truncates the search results *)

Lemma webSearch_normal_inv env query h result h' :
  webSearch env query None h = (Normal result, h') ->
  exists response,
    searchAndContents env h query (build_searchParams None) = Normal response /\
    results result = map pick_fields (x_results response) /\
    h' = h ++ [EvExaSearch query (build_searchParams None)].
Proof.
  unfold webSearch, try_catch.
  destruct (query_is_empty query).
  { simpl. discriminate. }
  unfold bind at 1. unfold ExaApiKeySchema_parse.
  destruct (EXA_API_KEY env) as [s|]; [|simpl; discriminate].
  destruct (length s <? 1)%nat; [simpl; discriminate|].
  unfold bind, call, ret. simpl.
  destruct (searchAndContents env h query _) as [response|e]; simpl.
  - intros E. injection E as <- <-. exists response. auto.
  - intros E.
    destruct (webSearch_catch_throws e (h ++ [EvExaSearch query (build_searchParams None)]))
      as (e' & T).
    rewrite T in E. discriminate E.
Qed.

(** C5, as the code has it: webSearch asks the provider for 5 results and
    returns every result the provider sends, without a bound of its own;
    the dispatching caller keeps the first 3 of them ([slice(0, 3)]), so a
    success entry holds at most 3 results. *)
Theorem search_results_truncated_by_caller env query acc h result h' :
  webSearch env query None h = (Normal result, h') ->
  webSearch_step env query acc h
  = (Normal (push acc {| tool := webSearchTool;
                         argument := query;
                         outcome := Result (SearchPayload
                                              (slice0 3 (results result))) |}),
     h') /\
  length (slice0 3 (results result)) = Nat.min 3 (length (results result)) /\
  exists response,
    searchAndContents env h query (build_searchParams None) = Normal response /\
    sp_numResults (build_searchParams None) = Fin 5 /\
    length (results result) = length (x_results response).
Proof.
  intros E. split; [apply webSearch_step_ok; exact E|].
  split; [apply length_firstn|].
  destruct (webSearch_normal_inv env query h result h' E) as (response & S & R & _).
  exists response. split; [exact S|]. split; [reflexivity|].
  rewrite R. apply length_map.
Qed.

Lemma sample_search_run :
  exists result h',
    webSearch sample_env (lit "good") None [] = (Normal result, h') /\
    length (results result) = 5.
Proof. vm_compute. eexists _, _. split; reflexivity. Qed.

Lemma search_results_truncated_by_caller_witness :
  exists result h',
    webSearch sample_env (lit "good") None [] = (Normal result, h') /\
    length (results result) = 5 /\
    webSearch_step sample_env (lit "good") [] []
    = (Normal [{| tool := webSearchTool;
                  argument := lit "good";
                  outcome := Result (SearchPayload (slice0 3 (results result))) |}],
       h') /\
    length (slice0 3 (results result)) = 3.
Proof.
  destruct sample_search_run as (result & h' & E & L).
  exists result, h'. split; [exact E|]. split; [exact L|].
  destruct (search_results_truncated_by_caller sample_env (lit "good") [] [] result h' E)
    as (S & B & _).
  split; [exact S|]. rewrite B, L. reflexivity.
Defined.

(** C5, as the spec words it (the caller attaches what the executor kept,
    without truncating), fails: in the sample world the executor returns the
    five results of the provider and the caller attaches three. *)
Lemma caller_does_truncate :
  ~ (forall env query acc h result h',
       webSearch env query None h = (Normal result, h') ->
       webSearch_step env query acc h
       = (Normal (push acc {| tool := webSearchTool;
                              argument := query;
                              outcome := Result (SearchPayload (results result)) |}),
          h')).
Proof.
  intros C.
  destruct sample_search_run as (result & h' & E & L).
  specialize (C sample_env (lit "good") [] [] result h' E).
  rewrite (webSearch_step_ok _ _ [] _ _ _ E) in C.
  injection C as C.
  destruct (results result) as [|r1 [|r2 [|r3 [|r4 rest]]]]; discriminate.
Qed.

(** ** Failures of a tool *)

(** C4 does not hold of the code: when the cleanup of a fetch invocation
    throws a value that has no string conversion, fetchUrl throws that value
    and the [catch] of the dispatcher, which evaluates [String(error)] to
    build the error entry, throws in turn: no entry is recorded for the
    invocation, the remaining invocations do not run, and agenticWorkflow
    throws without calling the synthesis model. *)
Theorem unprintable_cleanup_error_aborts_the_run
  env userQuery h plan pre url post rs_pre h_i t :
  let engine := length (filter is_EngineNew h_i) in
  generateObject env h userQuery = Normal plan ->
  invocations plan = pre ++ (fetchUrlTool, url) :: post ->
  for_of pre (invoke env) [] (h ++ [planning_call userQuery]) = (Normal rs_pre, h_i) ->
  cleanup env ((h_i ++ [EvEngineNew engine]) ++ [EvFetchHTML engine url]) engine
  = Throw (Unprintable t) ->
  agenticWorkflow env userQuery h
  = (Throw t,
     h_i ++ [EvEngineNew engine; EvFetchHTML engine url; EvCleanup engine]).
Proof.
  intros engine P I Pre C.
  assert (F : fetchUrl env url h_i
              = (Throw (Unprintable t),
                 h_i ++ [EvEngineNew engine; EvFetchHTML engine url; EvCleanup engine])).
  { rewrite fetchUrl_run. fold engine. rewrite C, <- !app_assoc. reflexivity. }
  unfold agenticWorkflow, bind at 1, call at 1. rewrite P.
  unfold bind at 1. fold (planning_call userQuery).
  rewrite executeTools_flat, I, for_of_app. unfold bind at 1. rewrite Pre.
  cbn [for_of]. unfold bind at 1. unfold invoke at 1. cbn [fst snd].
  rewrite (fetchUrl_step_abort env url rs_pre h_i t _ F). reflexivity.
Qed.

Lemma unprintable_cleanup_error_aborts_the_run_witness :
  let userQuery := lit "read this and search" in
  let url := lit "https://example.com" in
  invocations fetch_then_search_plan
  = (fetchUrlTool, url) :: [(webSearchTool, lit "good")] /\
  agenticWorkflow opaque_cleanup_world userQuery []
  = (Throw (ErrorObj (lit "Cannot convert object to primitive value")),
     [planning_call userQuery]
     ++ [EvEngineNew 0; EvFetchHTML 0 url; EvCleanup 0]).
Proof.
  intros userQuery url. split; [reflexivity|].
  apply (unprintable_cleanup_error_aborts_the_run opaque_cleanup_world userQuery []
           fetch_then_search_plan [] url [(webSearchTool, lit "good")] []
           [planning_call userQuery]
           (ErrorObj (lit "Cannot convert object to primitive value")));
    reflexivity.
Defined.

(** * Further properties *)

(** ** The paths through webSearch *)

(** What [SearchOptionsSchema.parse] returns when it accepts. *)
Lemma options_accepted_parsed env o h :
  options_accepted env (Some o) = true ->
  SearchOptionsSchema_parse env o h
  = (Normal {| numResults := default (Fin 5) (in_numResults o);
               searchType := default auto (in_searchType o);
               text := default true (in_text o);
               highlights := default true (in_highlights o);
               summary := default true (in_summary o);
               startPublishedDate := in_startPublishedDate o;
               endPublishedDate := in_endPublishedDate o;
               includeDomains := in_includeDomains o;
               excludeDomains := in_excludeDomains o |}, h).
Proof.
  unfold options_accepted, SearchOptionsSchema_parse.
  destruct (numResults_issues env _); [reflexivity | discriminate].
Qed.

Lemma webSearch_key_rejected env query options h :
  query_is_empty query = false ->
  apiKey_accepted env = false ->
  webSearch env query options h
  = (Throw (ErrorObj (lit "Validation error: " ++
                      match EXA_API_KEY env with
                      | Some _ => lit "EXA_API_KEY is required"
                      | None => zod_invalid_type env
                      end)), h).
Proof.
  intros Q K. unfold webSearch, try_catch. rewrite Q. unfold bind at 1.
  unfold apiKey_accepted in K. unfold ExaApiKeySchema_parse.
  destruct (EXA_API_KEY env) as [s|]; [|reflexivity].
  destruct (length s <? 1)%nat; [reflexivity | discriminate K].
Qed.

Lemma webSearch_options_rejected env query o h :
  query_is_empty query = false ->
  apiKey_accepted env = true ->
  options_accepted env (Some o) = false ->
  webSearch env query (Some o) h
  = (Throw (ErrorObj (lit "Validation error: " ++
                      join (lit ", ")
                           (numResults_issues env (default (Fin 5) (in_numResults o))))),
     h).
Proof.
  intros Q K O. unfold webSearch, try_catch. rewrite Q. unfold bind at 1.
  destruct (apiKey_accepted_parse env h K) as (apiKey & ->).
  unfold bind at 1. unfold bind at 1.
  unfold options_accepted in O. unfold SearchOptionsSchema_parse.
  destruct (numResults_issues env _) as [|issue issues]; [discriminate O|].
  reflexivity.
Qed.

Lemma map_pick_fields rs : map pick_fields rs = rs.
Proof.
  induction rs as [|r rs IH]; simpl; [reflexivity|].
  rewrite IH. destruct r; reflexivity.
Qed.

Lemma webSearch_catch_message e h :
  webSearch_catch e h = (Throw (ErrorObj (wrapped_message e)), h).
Proof. destruct e; reflexivity. Qed.

Lemma webSearch_reaches_provider env query options h :
  query_is_empty query = false ->
  apiKey_accepted env = true ->
  options_accepted env options = true ->
  let po := parsed_options options in
  let sp := build_searchParams po in
  webSearch env query options h
  = (match searchAndContents env h query sp with
     | Normal response =>
         Normal {| results := x_results response;
                   requestId := x_requestId response;
                   resolvedSearchType := default auto (option_map searchType po);
                   costDollars := x_costDollars response |}
     | Throw e => Throw (ErrorObj (wrapped_message e))
     end,
     h ++ [EvExaSearch query sp]).
Proof.
  intros Q K O po sp. unfold webSearch, try_catch. rewrite Q. unfold bind at 1.
  destruct (apiKey_accepted_parse env h K) as (apiKey & ->).
  unfold bind at 1.
  assert (P : (match options with
               | Some o => po0 <- SearchOptionsSchema_parse env o ;; ret (Some po0)
               | None => ret None
               end) h = (Normal po, h)).
  { unfold po. destruct options as [o|]; [|reflexivity].
    unfold bind. rewrite (options_accepted_parsed env o h O). reflexivity. }
  rewrite P. fold sp. unfold bind, call, ret.
  destruct (searchAndContents env h query sp) as [response|e].
  - rewrite map_pick_fields. reflexivity.
  - apply webSearch_catch_message.
Qed.

Lemma webSearch_blank env query options h :
  query_is_empty query = true ->
  webSearch env query options h
  = (Throw (ErrorObj (lit "Web search failed: Search query cannot be empty")), h).
Proof. intros Q. unfold webSearch, try_catch. rewrite Q. reflexivity. Qed.

(** Every run of webSearch takes one of four paths. *)
Lemma webSearch_paths env query options h :
  (exists m, webSearch env query options h = (Throw (ErrorObj m), h) /\
             (starts_with (lit "Validation error: ") m \/
              m = lit "Web search failed: Search query cannot be empty")) \/
  (query_is_empty query = false /\
   apiKey_accepted env = true /\
   options_accepted env options = true /\
   let sp := build_searchParams (parsed_options options) in
   webSearch env query options h
   = (match searchAndContents env h query sp with
      | Normal response =>
          Normal {| results := x_results response;
                    requestId := x_requestId response;
                    resolvedSearchType :=
                      default auto (option_map searchType (parsed_options options));
                    costDollars := x_costDollars response |}
      | Throw e => Throw (ErrorObj (wrapped_message e))
      end,
      h ++ [EvExaSearch query sp])).
Proof.
  destruct (query_is_empty query) eqn:Q.
  { left. eexists. split; [apply webSearch_blank; exact Q | right; reflexivity]. }
  destruct (apiKey_accepted env) eqn:K.
  2:{ left. eexists. split; [apply webSearch_key_rejected; assumption|].
      left. eexists. reflexivity. }
  destruct (options_accepted env options) eqn:O.
  2:{ destruct options as [o|]; [|discriminate O].
      left. eexists. split; [apply webSearch_options_rejected; assumption|].
      left. eexists. reflexivity. }
  right. repeat split. apply webSearch_reaches_provider; assumption.
Qed.

Lemma trimStart_nil_blank s : trimStart s = [] -> forallb is_whitespace s = true.
Proof.
  induction s as [|c s IH]; simpl; [reflexivity|].
  destruct (is_whitespace c); [exact IH | discriminate].
Qed.

Lemma trimStart_head s c s' : trimStart s = c :: s' -> is_whitespace c = false.
Proof.
  induction s as [|x s IH]; simpl; [discriminate|].
  destruct (is_whitespace x) eqn:W; [exact IH|].
  intros E. injection E as <- _. exact W.
Qed.

Lemma forallb_rev {A} (f : A -> bool) l : forallb f (rev l) = forallb f l.
Proof.
  induction l as [|x l IH]; simpl; [reflexivity|].
  rewrite forallb_app, IH. simpl. rewrite andb_true_r. apply andb_comm.
Qed.

Lemma trim_nil_blank s : trim s = [] -> forallb is_whitespace s = true.
Proof.
  unfold trim, trimEnd. intros E.
  apply (f_equal (@rev code_unit)) in E. rewrite rev_involutive in E. simpl in E.
  apply trimStart_nil_blank in E. rewrite forallb_rev in E.
  destruct (trimStart s) as [|c t] eqn:T.
  - apply trimStart_nil_blank. exact T.
  - apply trimStart_head in T. simpl in E. rewrite T in E. discriminate E.
Qed.

(** ** webSearch: validation, errors and what reaches the provider *)

(** X1: the guard of webSearch rejects exactly the queries that are empty or
    made of white space only. *)
Theorem query_guard_exact query :
  query_is_empty query = forallb is_whitespace query.
Proof.
  destruct (forallb is_whitespace query) eqn:B.
  - apply query_is_empty_blank. exact B.
  - destruct (query_is_empty query) eqn:Q; [|reflexivity].
    unfold query_is_empty in Q. apply orb_true_iff in Q. destruct Q as [Q|Q].
    + destruct query; [discriminate B | discriminate Q].
    + apply Nat.eqb_eq in Q. apply length_zero_iff_nil in Q.
      apply trim_nil_blank in Q. congruence.
Qed.

(** X2: with a query that is not blank, a missing or empty EXA_API_KEY makes
    webSearch throw a "Validation error: ..." [Error] (for an empty key,
    "Validation error: EXA_API_KEY is required") without a call to the
    provider, whatever the options. *)
Theorem webSearch_requires_api_key env query options h :
  query_is_empty query = false ->
  apiKey_accepted env = false ->
  webSearch env query options h
  = (Throw (ErrorObj (lit "Validation error: " ++
                      match EXA_API_KEY env with
                      | Some _ => lit "EXA_API_KEY is required"
                      | None => zod_invalid_type env
                      end)), h).
Proof. apply webSearch_key_rejected. Qed.

Lemma webSearch_requires_api_key_witness :
  webSearch (keyless_world (Some [])) (lit "good") None []
  = (Throw (ErrorObj (lit "Validation error: EXA_API_KEY is required")), []) /\
  webSearch (keyless_world None) (lit "good") (Some (sample_options 0)) []
  = (Throw (ErrorObj (lit "Validation error: Required")), []).
Proof.
  split.
  - apply (webSearch_requires_api_key (keyless_world (Some [])) (lit "good") None []);
      reflexivity.
  - apply (webSearch_requires_api_key (keyless_world None) (lit "good")
             (Some (sample_options 0)) []); reflexivity.
Defined.

(** X3: with an accepted key and a query that is not blank, a numResults
    that is NaN, below 1 or above 100 makes webSearch throw a
    "Validation error: ..." [Error] carrying the message of the schema,
    without a call to the provider. *)
Theorem webSearch_rejects_numResults env query o h :
  query_is_empty query = false ->
  apiKey_accepted env = true ->
  (in_numResults o = Some NaN \/
   exists n, in_numResults o = Some (Fin n) /\ (n < 1 \/ 100 < n)%Q) ->
  webSearch env query (Some o) h
  = (Throw (ErrorObj (lit "Validation error: " ++
                      match in_numResults o with
                      | Some (Fin n) =>
                          if Qle_bool 1 n then zod_too_big env else zod_too_small env
                      | _ => zod_invalid_type env
                      end)), h).
Proof.
  intros Q K B.
  assert (I : numResults_issues env (default (Fin 5) (in_numResults o))
              = [match in_numResults o with
                 | Some (Fin n) =>
                     if Qle_bool 1 n then zod_too_big env else zod_too_small env
                 | _ => zod_invalid_type env
                 end]).
  { destruct B as [-> | (n & -> & B)]; [reflexivity|]. simpl.
    destruct (Qle_bool 1 n) eqn:L1; destruct (Qle_bool n 100) eqn:L2;
      try reflexivity; exfalso.
    - apply Qle_bool_iff in L1, L2. destruct B; lra.
    - apply Qle_bool_false in L1, L2. lra. }
  rewrite (webSearch_options_rejected env query o h Q K).
  - rewrite I. reflexivity.
  - unfold options_accepted. rewrite I. reflexivity.
Qed.

Lemma webSearch_rejects_numResults_witness :
  webSearch sample_env (lit "good") (Some (sample_options 0)) []
  = (Throw (ErrorObj
       (lit "Validation error: Number must be greater than or equal to 1")), []) /\
  webSearch sample_env (lit "good") (Some (sample_options 101)) []
  = (Throw (ErrorObj
       (lit "Validation error: Number must be less than or equal to 100")), []).
Proof.
  split.
  - apply (webSearch_rejects_numResults sample_env (lit "good") (sample_options 0) []);
      [reflexivity | reflexivity |].
    right. exists 0%Q. split; [reflexivity | left; reflexivity].
  - apply (webSearch_rejects_numResults sample_env (lit "good") (sample_options 101) []);
      [reflexivity | reflexivity |].
    right. exists 101%Q. split; [reflexivity | right; reflexivity].
Defined.

(** X4: whatever goes wrong, webSearch throws an [Error] object (never a
    ZodError, never a value that is not an Error), and its message starts
    with "Validation error: " or "Web search failed: ", or is "An unexpected
    error occurred during web search". *)
Theorem webSearch_throws_only_Errors env query options h e h' :
  webSearch env query options h = (Throw e, h') ->
  exists m,
    e = ErrorObj m /\
    (starts_with (lit "Validation error: ") m \/
     starts_with (lit "Web search failed: ") m \/
     m = lit "An unexpected error occurred during web search").
Proof.
  intros E.
  destruct (webSearch_paths env query options h)
    as [(m & W & [V|B]) | (_ & _ & _ & W)].
  - rewrite W in E. injection E as <- _. exists m. auto.
  - rewrite W in E. injection E as <- _. exists m. split; [reflexivity|].
    right; left. subst m. exists (lit "Search query cannot be empty"). reflexivity.
  - cbv zeta in W. rewrite W in E.
    destruct (searchAndContents env h query _) as [r|e0]; [discriminate E|].
    injection E as <- _. eexists. split; [reflexivity|].
    destruct e0; simpl.
    + right; left. eexists; reflexivity.
    + left. eexists; reflexivity.
    + right; right. reflexivity.
    + right; right. reflexivity.
Qed.

Lemma webSearch_throws_only_Errors_witness :
  exists m,
    ErrorObj (lit "Web search failed: rate limited") = ErrorObj m /\
    (starts_with (lit "Validation error: ") m \/
     starts_with (lit "Web search failed: ") m \/
     m = lit "An unexpected error occurred during web search").
Proof.
  apply (webSearch_throws_only_Errors sample_env (lit "bad") None []
           (ErrorObj (lit "Web search failed: rate limited"))
           [EvExaSearch (lit "bad") (build_searchParams None)]).
  reflexivity.
Defined.

(** X5: webSearch calls the provider at most once, for the query it was
    given: either it throws with the history unchanged, or the history grows
    by one search of that query. *)
Theorem webSearch_calls_at_most_once env query options h :
  (exists e, webSearch env query options h = (Throw e, h)) \/
  (exists sp, snd (webSearch env query options h) = h ++ [EvExaSearch query sp]).
Proof.
  destruct (webSearch_paths env query options h)
    as [(m & W & _) | (_ & _ & _ & W)].
  - left. eexists. exact W.
  - right. eexists. cbv zeta in W. rewrite W. reflexivity.
Qed.

Lemma history_grew_by_one (h : History) ev ev' : h ++ [ev] = h ++ [ev'] -> ev = ev'.
Proof. intros E. apply app_inv_head in E. injection E as E. exact E. Qed.

Lemma history_unchanged_not_grown (h : History) ev : h <> h ++ [ev].
Proof.
  intros E. rewrite <- (app_nil_r h) in E at 1.
  apply app_inv_head in E. discriminate E.
Qed.

(** The provider was called with [sp]: webSearch took its last path. *)
Lemma webSearch_called env query options h sp :
  snd (webSearch env query options h) = h ++ [EvExaSearch query sp] ->
  sp = build_searchParams (parsed_options options) /\
  fst (webSearch env query options h)
  = match searchAndContents env h query sp with
    | Normal response =>
        Normal {| results := x_results response;
                  requestId := x_requestId response;
                  resolvedSearchType :=
                    default auto (option_map searchType (parsed_options options));
                  costDollars := x_costDollars response |}
    | Throw e => Throw (ErrorObj (wrapped_message e))
    end.
Proof.
  intros S.
  destruct (webSearch_paths env query options h)
    as [(m & W & _) | (_ & _ & _ & W)].
  - rewrite W in S. simpl in S. exfalso.
    exact (history_unchanged_not_grown h _ S).
  - cbv zeta in W. rewrite W in S. simpl in S.
    apply history_grew_by_one in S. injection S as S.
    rewrite W. simpl. rewrite <- S. auto.
Qed.

(** X6: when the call to the provider throws, webSearch throws an [Error]
    made from it: "Web search failed: " followed by the message of an Error,
    "Validation error: " followed by the issue messages of a ZodError joined
    by ", ", and the fixed text "An unexpected error occurred during web
    search" for any other thrown value, whose content is dropped. *)
Theorem webSearch_wraps_provider_errors env query options h sp e :
  snd (webSearch env query options h) = h ++ [EvExaSearch query sp] ->
  searchAndContents env h query sp = Throw e ->
  fst (webSearch env query options h)
  = Throw (ErrorObj
      match e with
      | ErrorObj message => lit "Web search failed: " ++ message
      | ZodErrorObj _ issues => lit "Validation error: " ++ join (lit ", ") issues
      | NonError _ | Unprintable _ =>
          lit "An unexpected error occurred during web search"
      end).
Proof.
  intros S P. destruct (webSearch_called env query options h sp S) as (_ & ->).
  rewrite P. destruct e; reflexivity.
Qed.

Lemma webSearch_wraps_provider_errors_witness :
  fst (webSearch sample_env (lit "bad") None [])
  = Throw (ErrorObj (lit "Web search failed: " ++ lit "rate limited")).
Proof.
  apply (webSearch_wraps_provider_errors sample_env (lit "bad") None []
           (build_searchParams None) (ErrorObj (lit "rate limited")));
    reflexivity.
Defined.

(** X7: when the call to the provider returns, webSearch returns all the
    results of the provider, in the provider's order, with its request id and
    cost; resolvedSearchType is the search type asked for in the options
    ("auto" without one), not something the provider reports. *)
Theorem webSearch_returns_provider_results env query options h sp response :
  snd (webSearch env query options h) = h ++ [EvExaSearch query sp] ->
  searchAndContents env h query sp = Normal response ->
  fst (webSearch env query options h)
  = Normal {| results := x_results response;
              requestId := x_requestId response;
              resolvedSearchType := default auto (option_field options in_searchType);
              costDollars := x_costDollars response |}.
Proof.
  intros S P. destruct (webSearch_called env query options h sp S) as (_ & ->).
  rewrite P. destruct options; reflexivity.
Qed.

Lemma webSearch_returns_provider_results_witness :
  fst (webSearch sample_env (lit "good") (Some (sample_options 4)) [])
  = Normal {| results := map sample_result [0; 1; 2; 3; 4]%N;
              requestId := lit "req-1";
              resolvedSearchType := neural;
              costDollars := None |}.
Proof.
  apply (webSearch_returns_provider_results sample_env (lit "good")
           (Some (sample_options 4)) []
           (build_searchParams (parsed_options (Some (sample_options 4))))
           {| x_results := map sample_result [0; 1; 2; 3; 4]%N;
              x_requestId := lit "req-1";
              x_costDollars := None |});
    reflexivity.
Defined.

(** X8: once the query, the key and the options are accepted, webSearch asks
    the provider with: the search type of the options or "auto"; text,
    highlights and summary on unless the options turn them off; a start or
    end date only when it is a non-empty string; the domain lists as given,
    even when empty. *)
Theorem webSearch_request_fields env query options h :
  query_is_empty query = false ->
  apiKey_accepted env = true ->
  options_accepted env options = true ->
  exists sp,
    snd (webSearch env query options h) = h ++ [EvExaSearch query sp] /\
    sp_type sp = default auto (option_field options in_searchType) /\
    sp_text sp = default true (option_field options in_text) /\
    sp_highlights sp = default true (option_field options in_highlights) /\
    sp_summary sp = default true (option_field options in_summary) /\
    sp_startPublishedDate sp
    = if_truthy_string (option_field options in_startPublishedDate) /\
    sp_endPublishedDate sp
    = if_truthy_string (option_field options in_endPublishedDate) /\
    sp_includeDomains sp = option_field options in_includeDomains /\
    sp_excludeDomains sp = option_field options in_excludeDomains.
Proof.
  intros Q K O. exists (build_searchParams (parsed_options options)).
  rewrite (webSearch_reaches_provider env query options h Q K O).
  destruct options as [o|]; simpl; repeat split.
Qed.

Lemma webSearch_request_fields_witness :
  let options :=
    Some {| in_numResults := None;
            in_searchType := Some keyword;
            in_text := Some false;
            in_highlights := None;
            in_summary := None;
            in_startPublishedDate := Some [];
            in_endPublishedDate := Some (lit "2025-01-01");
            in_includeDomains := Some [];
            in_excludeDomains := None |} in
  exists sp,
    snd (webSearch sample_env (lit "good") options [])
    = [] ++ [EvExaSearch (lit "good") sp] /\
    sp_type sp = keyword /\
    sp_text sp = false /\
    sp_highlights sp = true /\
    sp_summary sp = true /\
    sp_startPublishedDate sp = None /\
    sp_endPublishedDate sp = Some (lit "2025-01-01") /\
    sp_includeDomains sp = Some [] /\
    sp_excludeDomains sp = None.
Proof.
  intros options.
  apply (webSearch_request_fields sample_env (lit "good") options []);
    reflexivity.
Defined.

(** ** simpleWebSearch *)

(** X9: simpleWebSearch is webSearch without options: with an accepted key
    and a query that is not blank it asks the provider once, for 5 results,
    search type "auto", text, highlights and summary on and no filter, and it
    returns the provider's results or throws the provider's error wrapped as
    webSearch wraps it. *)
Theorem simpleWebSearch_request env query h :
  query_is_empty query = false ->
  apiKey_accepted env = true ->
  let sp := {| sp_numResults := Fin 5;
               sp_type := auto;
               sp_text := true;
               sp_highlights := true;
               sp_summary := true;
               sp_startPublishedDate := None;
               sp_endPublishedDate := None;
               sp_includeDomains := None;
               sp_excludeDomains := None |} in
  simpleWebSearch env query h
  = (match searchAndContents env h query sp with
     | Normal response => Normal (x_results response)
     | Throw e => Throw (ErrorObj (wrapped_message e))
     end,
     h ++ [EvExaSearch query sp]).
Proof.
  intros Q K sp. unfold simpleWebSearch, bind.
  rewrite (webSearch_reaches_provider env query None h Q K eq_refl).
  change (build_searchParams (parsed_options None)) with sp.
  destruct (searchAndContents env h query sp); reflexivity.
Qed.

Lemma simpleWebSearch_request_witness :
  fst (simpleWebSearch sample_env (lit "good") [])
  = Normal (map sample_result [0; 1; 2; 3; 4]%N) /\
  fst (simpleWebSearch sample_env (lit "bad") [])
  = Throw (ErrorObj (lit "Web search failed: rate limited")).
Proof.
  split.
  - rewrite (simpleWebSearch_request sample_env (lit "good") []); reflexivity.
  - rewrite (simpleWebSearch_request sample_env (lit "bad") []); reflexivity.
Defined.

(** ** Runs of the dispatch loop, invocation by invocation *)

Lemma webSearch_history env query h :
  snd (webSearch env query None h)
  = h ++ invocation_trace env (webSearchTool, query) h.
Proof.
  unfold invocation_trace; cbn [fst snd].
  destruct (query_is_empty query) eqn:Q.
  { rewrite (webSearch_blank env query None h Q), andb_false_r, app_nil_r.
    reflexivity. }
  destruct (apiKey_accepted env) eqn:K.
  - rewrite (webSearch_reaches_provider env query None h Q K eq_refl). reflexivity.
  - rewrite (webSearch_key_rejected env query None h Q K), app_nil_r. reflexivity.
Qed.

Lemma invoke_run (env : PrintableEnv) inv h :
  exists r,
    key r = inv /\
    forall acc,
      invoke env inv acc h = (Normal (acc ++ [r]), h ++ invocation_trace env inv h).
Proof.
  destruct inv as [[] a]; unfold invoke; cbn [fst snd].
  - pose proof (webSearch_history env a h) as S.
    destruct (webSearch env a None h) as [[res|e] h'] eqn:E; simpl in S; subst h'.
    + eexists. split; [|intros acc; apply (webSearch_step_ok _ _ acc _ _ _ E)].
      reflexivity.
    + destruct (webSearch_throws_ErrorObj _ _ _ _ _ _ E) as (m & ->).
      exists {| tool := webSearchTool; argument := a; outcome := Failure m |}.
      split; [reflexivity|]. intros acc.
      destruct (webSearch_step_err _ _ acc _ _ _ E) as (m' & M & ->).
      injection M as <-. reflexivity.
  - pose proof (printable_fetchUrl_run env a h) as R. cbv zeta in R.
    assert (T : ((h ++ [EvEngineNew (length (filter is_EngineNew h))])
                 ++ [EvFetchHTML (length (filter is_EngineNew h)) a])
                ++ [EvCleanup (length (filter is_EngineNew h))]
                = h ++ invocation_trace env (fetchUrlTool, a) h).
    { rewrite <- !app_assoc. reflexivity. }
    rewrite T in R.
    destruct (fetchUrl env a h) as [[content|e] h'] eqn:E;
      injection R as _ ->.
    + eexists. split; [|intros acc; apply (fetchUrl_step_ok _ _ acc _ _ _ E)].
      reflexivity.
    + destruct (error_description_has_string e
                  (h ++ invocation_trace env (fetchUrlTool, a) h)
                  (printable_fetchUrl_throws env a h e _ E)) as (d & D).
      eexists. split; [|intros acc; apply (fetchUrl_step_err _ _ acc _ _ _ _ E D)].
      reflexivity.
  - eexists. split; [|intros acc; apply generateHaiku_step_run]. reflexivity.
Qed.

(** Induction over a run: a property of the entries that holds of no
    invocation and is kept by one more invocation in front holds of every
    run, whose history is the run trace. *)
Lemma run_induction (env : PrintableEnv)
  (Q : History -> list (ToolName * jsstring) -> list ToolResult -> Prop) :
  (forall h, Q h [] []) ->
  (forall h inv invs r rs,
     key r = inv ->
     (forall acc,
        invoke env inv acc h = (Normal (acc ++ [r]), h ++ invocation_trace env inv h)) ->
     Q (h ++ invocation_trace env inv h) invs rs ->
     Q h (inv :: invs) (r :: rs)) ->
  forall invs h,
  exists rs,
    (forall acc,
       for_of invs (invoke env) acc h
       = (Normal (acc ++ rs), h ++ run_trace env invs h)) /\
    Q h invs rs.
Proof.
  intros Base Step. induction invs as [|inv invs IH]; intros h.
  - exists []. split; [|apply Base].
    intros acc. simpl. rewrite !app_nil_r. reflexivity.
  - destruct (invoke_run env inv h) as (r & K & E).
    destruct (IH (h ++ invocation_trace env inv h)) as (rs & E' & HQ).
    exists (r :: rs). split; [|apply Step; assumption].
    intros acc. simpl. unfold bind. rewrite E, E', <- !app_assoc. reflexivity.
Qed.

Lemma executeTools_run (env : PrintableEnv) plan h
  (Q : History -> list (ToolName * jsstring) -> list ToolResult -> Prop) :
  (forall h, Q h [] []) ->
  (forall h inv invs r rs,
     key r = inv ->
     (forall acc,
        invoke env inv acc h = (Normal (acc ++ [r]), h ++ invocation_trace env inv h)) ->
     Q (h ++ invocation_trace env inv h) invs rs ->
     Q h (inv :: invs) (r :: rs)) ->
  exists rs,
    executeTools env plan h
    = (Normal rs, h ++ run_trace env (invocations plan) h) /\
    Q h (invocations plan) rs.
Proof.
  intros Base Step.
  destruct (run_induction env Q Base Step (invocations plan) h) as (rs & E & HQ).
  exists rs. split; [|exact HQ]. rewrite executeTools_flat. apply (E []).
Qed.

Lemma arguments_of_cons t t' a invs :
  arguments_of t ((t', a) :: invs)
  = if ToolName_eqb t' t then a :: arguments_of t invs else arguments_of t invs.
Proof. unfold arguments_of. simpl. destruct (ToolName_eqb t' t); reflexivity. Qed.

Lemma run_trace_engines env invs : forall h,
  filter is_engine_event (run_trace env invs h)
  = engine_trace (count is_EngineNew h) (arguments_of fetchUrlTool invs).
Proof.
  induction invs as [|[t a] invs IH]; intros h; [reflexivity|].
  cbn [run_trace]. rewrite filter_app, IH, arguments_of_cons.
  unfold count. rewrite filter_app, length_app.
  destruct t; unfold invocation_trace; cbn [fst snd ToolName_eqb].
  - destruct (apiKey_accepted env && negb (query_is_empty a));
      simpl; rewrite Nat.add_0_r; reflexivity.
  - simpl. rewrite Nat.add_1_r. reflexivity.
  - simpl. rewrite Nat.add_0_r. reflexivity.
Qed.

Lemma run_trace_searches env invs : forall h,
  filter is_ExaSearch (run_trace env invs h)
  = if apiKey_accepted env
    then map (fun q => EvExaSearch q (build_searchParams None))
             (filter (fun q => negb (query_is_empty q))
                     (arguments_of webSearchTool invs))
    else [].
Proof.
  induction invs as [|[t a] invs IH]; intros h.
  - destruct (apiKey_accepted env); reflexivity.
  - cbn [run_trace]. rewrite filter_app, IH, arguments_of_cons.
    destruct t; unfold invocation_trace; cbn [fst snd ToolName_eqb]; try reflexivity.
    destruct (apiKey_accepted env); [|reflexivity].
    cbn [andb filter]. destruct (query_is_empty a); reflexivity.
Qed.

Lemma run_trace_models env invs : forall h,
  filter is_model_event (run_trace env invs h)
  = map (fun prompt => EvGenerateText "gpt-4.1-nano" (PromptText (haikuPrompt prompt)))
        (arguments_of generateHaikuTool invs).
Proof.
  induction invs as [|[t a] invs IH]; intros h; [reflexivity|].
  cbn [run_trace]. rewrite filter_app, IH, arguments_of_cons.
  destruct t; unfold invocation_trace; cbn [fst snd ToolName_eqb]; try reflexivity.
  destruct (apiKey_accepted env && negb (query_is_empty a)); reflexivity.
Qed.

Lemma filter_filter_sub {A} (p q : A -> bool) l :
  (forall x, p x = true -> q x = true) ->
  filter p (filter q l) = filter p l.
Proof.
  intros I. induction l as [|x l IH]; simpl; [reflexivity|].
  destruct (q x) eqn:Qx; simpl.
  - rewrite IH. reflexivity.
  - destruct (p x) eqn:Px; [|exact IH]. rewrite (I x Px) in Qx. discriminate Qx.
Qed.

Lemma engine_trace_counts urls : forall engine,
  count is_EngineNew (engine_trace engine urls) = length urls /\
  count is_Cleanup (engine_trace engine urls) = length urls.
Proof.
  unfold count. induction urls as [|url urls IH]; intros engine; simpl; [auto|].
  destruct (IH (S engine)) as (N & C). rewrite N, C. auto.
Qed.

(** X10: in a world whose thrown values all have a string conversion (so
    that the loop completes), in a run of the dispatch loop the fetch engines are used one at a
    time and never shared: the engine events of the run are, for each fetched
    URL of the plan in order, the creation of a new engine, its one fetch of
    that URL and its cleanup; so as many engines are created, and as many
    cleaned up, as the plan has fetch invocations. *)
Theorem engines_one_per_fetch (env : PrintableEnv) plan h :
  exists toolResults d,
    executeTools env plan h = (Normal toolResults, h ++ d) /\
    filter is_engine_event d
    = engine_trace (count is_EngineNew h)
                   (arguments_of fetchUrlTool (invocations plan)) /\
    count is_EngineNew d = length (arguments_of fetchUrlTool (invocations plan)) /\
    count is_Cleanup d = length (arguments_of fetchUrlTool (invocations plan)).
Proof.
  destruct (executeTools_run env plan h (fun _ _ _ => True)) as (rs & E & _); auto.
  exists rs, (run_trace env (invocations plan) h).
  split; [exact E|].
  pose proof (run_trace_engines env (invocations plan) h) as T.
  split; [exact T|].
  destruct (engine_trace_counts (arguments_of fetchUrlTool (invocations plan))
              (count is_EngineNew h)) as (N & C).
  rewrite <- T in N, C. unfold count in N, C |- *.
  rewrite filter_filter_sub in N by (intros []; simpl; congruence).
  rewrite filter_filter_sub in C by (intros []; simpl; congruence).
  auto.
Qed.

(** X11: in a world whose thrown values all have a string conversion (so
    that the loop completes), in a run of the dispatch loop the search provider is asked exactly
    for the search queries of the plan that are not blank, in plan order,
    each once and each for 5 results with the default parameters; it is not
    asked at all when the API key is missing or empty. *)
Theorem searches_of_a_run (env : PrintableEnv) plan h :
  exists toolResults d,
    executeTools env plan h = (Normal toolResults, h ++ d) /\
    filter is_ExaSearch d
    = if apiKey_accepted env
      then map (fun q => EvExaSearch q (build_searchParams None))
               (filter (fun q => negb (query_is_empty q))
                       (arguments_of webSearchTool (invocations plan)))
      else [].
Proof.
  destruct (executeTools_run env plan h (fun _ _ _ => True)) as (rs & E & _); auto.
  exists rs, (run_trace env (invocations plan) h).
  split; [exact E | apply run_trace_searches].
Qed.

(** X12: in a world whose thrown values all have a string conversion (so
    that the loop completes), the only model calls made by the dispatch loop are the haiku
    calls: one "gpt-4.1-nano" call per haiku prompt of the plan, in plan
    order, with the haiku template around the prompt; the loop never calls
    the planner or the synthesis model. *)
Theorem model_calls_of_a_run (env : PrintableEnv) plan h :
  exists toolResults d,
    executeTools env plan h = (Normal toolResults, h ++ d) /\
    filter is_model_event d
    = map (fun prompt =>
             EvGenerateText "gpt-4.1-nano" (PromptText (haikuPrompt prompt)))
          (arguments_of generateHaikuTool (invocations plan)).
Proof.
  destruct (executeTools_run env plan h (fun _ _ _ => True)) as (rs & E & _); auto.
  exists rs, (run_trace env (invocations plan) h).
  split; [exact E | apply run_trace_models].
Qed.

Lemma webSearch_without_key env query h :
  apiKey_accepted env = false ->
  exists e, webSearch env query None h = (Throw e, h).
Proof.
  intros K. destruct (query_is_empty query) eqn:Q.
  - eexists. apply webSearch_blank. exact Q.
  - eexists. apply webSearch_key_rejected; assumption.
Qed.

(** X13: in a world whose thrown values all have a string conversion,
    without an accepted API key the dispatch loop still completes
    normally, asks nothing of the search provider, and records an error
    entry for every search invocation of the plan. *)
Theorem run_without_api_key (env : PrintableEnv) plan h :
  apiKey_accepted env = false ->
  exists toolResults d,
    executeTools env plan h = (Normal toolResults, h ++ d) /\
    map key toolResults = invocations plan /\
    filter is_ExaSearch d = [] /\
    forallb search_failed toolResults = true.
Proof.
  intros K.
  destruct (executeTools_run env plan h
              (fun _ invs rs => map key rs = invs /\ forallb search_failed rs = true))
    as (rs & E & M & F).
  - auto.
  - intros h0 inv invs r rs Kr I (M & F). split; [simpl; congruence|].
    simpl. rewrite F, andb_true_r. unfold search_failed.
    destruct (ToolName_eqb (tool r) webSearchTool) eqn:T; [|reflexivity].
    apply ToolName_eqb_eq in T. destruct inv as [t a].
    unfold key in Kr. injection Kr as Kt Ka. rewrite T in Kt. subst t.
    specialize (I []). unfold invoke in I. cbn [fst snd] in I.
    destruct (webSearch_without_key env a h0 K) as (e & W).
    destruct (webSearch_step_err _ _ [] _ _ _ W) as (m & _ & S).
    rewrite S in I. injection I as I _. subst r. reflexivity.
  - exists rs, (run_trace env (invocations plan) h).
    repeat split; auto.
    rewrite run_trace_searches, K. reflexivity.
Qed.

Lemma run_without_api_key_witness :
  let env := keyless_world None in
  apiKey_accepted env = false /\
  exists toolResults d,
    executeTools env sample_plan [] = (Normal toolResults, [] ++ d) /\
    map key toolResults = invocations sample_plan /\
    filter is_ExaSearch d = [] /\
    forallb search_failed toolResults = true.
Proof.
  intros env. split; [reflexivity|].
  apply (run_without_api_key
           {| penv := env; penv_printable := keyless_world_printable None |}
           sample_plan []).
  reflexivity.
Defined.

(** X14: in a world whose thrown values all have a string conversion (so
    that the loop completes), running a plan whose tool list is [ts1 ++ ts2] is running it for
    [ts1] and then, from the history reached, for [ts2]: the entries are
    those of the first run followed by those of the second; no invocation
    reads the entries gathered before it. *)
Theorem executeTools_app (env : PrintableEnv) plan ts1 ts2 h :
  exists rs1 h1 rs2 h2,
    executeTools env (with_tools plan ts1) h = (Normal rs1, h1) /\
    executeTools env (with_tools plan ts2) h1 = (Normal rs2, h2) /\
    executeTools env (with_tools plan (ts1 ++ ts2)) h = (Normal (rs1 ++ rs2), h2).
Proof.
  destruct (run_induction env (fun _ _ _ => True)
              (fun _ => I) (fun _ _ _ _ _ _ _ _ => I)
              (invocations (with_tools plan ts1)) h) as (rs1 & E1 & _).
  set (h1 := h ++ run_trace env (invocations (with_tools plan ts1)) h) in *.
  destruct (run_induction env (fun _ _ _ => True)
              (fun _ => I) (fun _ _ _ _ _ _ _ _ => I)
              (invocations (with_tools plan ts2)) h1) as (rs2 & E2 & _).
  exists rs1, h1, rs2, (h1 ++ run_trace env (invocations (with_tools plan ts2)) h1).
  rewrite !executeTools_flat.
  split; [apply (E1 [])|]. split; [apply (E2 [])|].
  assert (A : invocations (with_tools plan (ts1 ++ ts2))
              = invocations (with_tools plan ts1) ++ invocations (with_tools plan ts2)).
  { unfold invocations. simpl. apply flat_map_app. }
  rewrite A, for_of_app. unfold bind. rewrite (E1 []). apply (E2 rs1).
Qed.

(** ** The workflow as a whole *)

(** X15: when the planning call throws, agenticWorkflow throws the same
    value at once: no tool runs and the synthesis model is not called. *)
Theorem planner_failure_is_fatal env userQuery h e :
  generateObject env h userQuery = Throw e ->
  agenticWorkflow env userQuery h = (Throw e, h ++ [planning_call userQuery]).
Proof.
  intros P. unfold agenticWorkflow, bind, call. rewrite P. reflexivity.
Qed.

Lemma planner_failure_is_fatal_witness :
  agenticWorkflow offline_world (lit "what is new?") []
  = (Throw (ErrorObj (lit "planner unreachable")),
     [] ++ [planning_call (lit "what is new?")]).
Proof.
  apply (planner_failure_is_fatal offline_world (lit "what is new?") []).
  reflexivity.
Defined.

(** X16: agenticWorkflow throws only what the planning call threw, what the
    synthesis call threw after every invocation of the plan has run, or what
    a string conversion threw while the [catch] of the dispatcher described
    an error of fetchUrl or generateHaiku that has no string conversion. A
    failing search, and a failing tool whose error has a string conversion,
    never make the workflow throw. *)
Theorem workflow_failure_origin env userQuery h e h' :
  agenticWorkflow env userQuery h = (Throw e, h') ->
  (generateObject env h userQuery = Throw e /\
   h' = h ++ [planning_call userQuery]) \/
  (exists plan toolResults h1,
     generateObject env h userQuery = Normal plan /\
     executeTools env plan (h ++ [planning_call userQuery])
     = (Normal toolResults, h1) /\
     map key toolResults = invocations plan /\
     generateText env h1 "gpt-4.1-mini"
       (PromptSynthesis (reasoning plan) (expectedWorkflow plan)
                        userQuery toolResults) = Throw e /\
     h' = h1 ++ [synthesis_call plan userQuery toolResults]) \/
  (exists plan pre inv post rs_pre h_i,
     generateObject env h userQuery = Normal plan /\
     invocations plan = pre ++ inv :: post /\
     for_of pre (invoke env) [] (h ++ [planning_call userQuery])
     = (Normal rs_pre, h_i) /\
     ((exists url, inv = (fetchUrlTool, url) /\
                   fetchUrl env url h_i = (Throw (Unprintable e), h')) \/
      (exists prompt, inv = (generateHaikuTool, prompt) /\
                      generateHaiku env prompt h_i = (Throw (Unprintable e), h')))).
Proof.
  intros W. destruct (generateObject env h userQuery) as [plan|e0] eqn:P.
  - right.
    destruct (executeTools env plan (h ++ [planning_call userQuery]))
      as [[rs|e1] h1] eqn:E.
    + left. rewrite (agenticWorkflow_run _ _ _ _ _ _ P E) in W.
      exists plan, rs, h1.
      destruct (executeTools_normal env plan _ rs h1 E) as (K & _).
      destruct (generateText env h1 _ _) as [t|e2]; [discriminate W|].
      injection W as <- <-. auto.
    + right. rewrite (agenticWorkflow_abort _ _ _ _ _ _ P E) in W.
      injection W as <- <-. rewrite executeTools_flat in E.
      destruct (run_throws env (invocations plan) [] _ e1 h1 E)
        as (pre & inv & post & rs_pre & h_i & I & Pre & C).
      exists plan, pre, inv, post, rs_pre, h_i. auto.
  - left. unfold agenticWorkflow, bind, call in W. rewrite P in W.
    injection W as <- <-. auto.
Qed.

Lemma workflow_failure_origin_witness :
  let userQuery := lit "what is new?" in
  exists e h',
    agenticWorkflow mute_world userQuery [] = (Throw e, h') /\
    exists plan toolResults h1,
      generateObject mute_world [] userQuery = Normal plan /\
      executeTools mute_world plan ([] ++ [planning_call userQuery])
      = (Normal toolResults, h1) /\
      map key toolResults = invocations plan /\
      generateText mute_world h1 "gpt-4.1-mini"
        (PromptSynthesis (reasoning plan) (expectedWorkflow plan)
                         userQuery toolResults) = Throw e /\
      h' = h1 ++ [synthesis_call plan userQuery toolResults].
Proof.
  intros userQuery.
  destruct (agenticWorkflow mute_world userQuery []) as [[w|e] h'] eqn:W;
    [vm_compute in W; discriminate W|].
  exists e, h'. split; [reflexivity|].
  destruct (workflow_failure_origin mute_world userQuery [] e h' W)
    as [(P & _) | [R | (plan & pre & inv & post & rs_pre & h_i & _ & _ & _ & C)]].
  - vm_compute in P. discriminate P.
  - exact R.
  - exfalso. vm_compute in W. injection W as <- _.
    destruct C as [(url & _ & F) | (prompt & _ & G)].
    + rewrite fetchUrl_run in F. simpl in F.
      destruct (jsstring_eqb url (lit "https://down.example"));
        simpl in F; discriminate F.
    + rewrite generateHaiku_run in G. simpl in G. discriminate G.
Defined.

(** X17: when agenticWorkflow returns, the plan it returns is the planner's,
    its toolResults are the entries of that plan's invocations, in order,
    and are the very list the synthesis model was given, and its response is
    the text the synthesis model answered. *)
Theorem workflow_result_consistent env userQuery h w h' :
  agenticWorkflow env userQuery h = (Normal w, h') ->
  generateObject env h userQuery = Normal (w_plan w) /\
  map key (w_toolResults w) = invocations (w_plan w) /\
  exists h1,
    executeTools env (w_plan w) (h ++ [planning_call userQuery])
    = (Normal (w_toolResults w), h1) /\
    generateText env h1 "gpt-4.1-mini"
      (PromptSynthesis (reasoning (w_plan w)) (expectedWorkflow (w_plan w))
                       userQuery (w_toolResults w)) = Normal (w_response w) /\
    h' = h1 ++ [synthesis_call (w_plan w) userQuery (w_toolResults w)].
Proof.
  intros W. destruct (generateObject env h userQuery) as [plan|e0] eqn:P.
  - destruct (executeTools env plan (h ++ [planning_call userQuery]))
      as [[rs|e1] h1] eqn:E.
    + destruct (executeTools_normal env plan _ rs h1 E) as (K & _).
      rewrite (agenticWorkflow_run _ _ _ _ _ _ P E) in W.
      destruct (generateText env h1 _ _) as [t|e2] eqn:G; [|discriminate W].
      injection W as <- <-. simpl. repeat split; auto.
      exists h1. auto.
    + rewrite (agenticWorkflow_abort _ _ _ _ _ _ P E) in W. discriminate W.
  - unfold agenticWorkflow, bind, call in W. rewrite P in W. discriminate W.
Qed.

Lemma workflow_result_consistent_witness :
  let userQuery := lit "what is new?" in
  exists w h',
    agenticWorkflow sample_env userQuery [] = (Normal w, h') /\
    generateObject sample_env [] userQuery = Normal (w_plan w) /\
    map key (w_toolResults w) = invocations (w_plan w) /\
    w_response w = lit "final answer".
Proof.
  intros userQuery.
  destruct (agenticWorkflow sample_env userQuery []) as [[w|e] h'] eqn:W;
    [|vm_compute in W; discriminate W].
  exists w, h'. split; [reflexivity|].
  destruct (workflow_result_consistent sample_env userQuery [] w h' W)
    as (P & K & h1 & _ & G & _).
  repeat split; [exact P | exact K |].
  simpl in G. injection G as G. symmetry. exact G.
Defined.

(** ** processQuery *)

Lemma offline_world_printable : printable_env offline_world.
Proof.
  split; intros; simpl; try exact I.
  - destruct (jsstring_eqb q (lit "bad")); exact I.
  - destruct (jsstring_eqb url (lit "https://down.example")); exact I.
Qed.

(** In a world whose thrown values have a string conversion, so has every
    value thrown by the workflow. *)
Lemma printable_workflow_throws (env : PrintableEnv) userQuery h e h' :
  agenticWorkflow env userQuery h = (Throw e, h') -> has_string e.
Proof.
  intros W.
  pose proof (printable_generateObject _ (penv_printable env) h userQuery) as P.
  destruct (generateObject env h userQuery) as [plan|e0] eqn:G.
  - destruct (executeTools_spec env plan (h ++ [planning_call userQuery]))
      as (rs & h1 & E & _).
    rewrite (agenticWorkflow_run _ _ _ _ _ _ G E) in W.
    pose proof (printable_generateText _ (penv_printable env) h1
                  "gpt-4.1-mini"%string
                  (PromptSynthesis (reasoning plan) (expectedWorkflow plan)
                                   userQuery rs)) as S.
    destruct (generateText env h1 _ _) as [t|e1]; [discriminate W|].
    injection W as <- _. exact S.
  - unfold agenticWorkflow, bind, call in W. rewrite G in W.
    injection W as <- _. exact P.
Qed.

(** X18: processQuery throws only when the workflow threw a value that has
    no string conversion: its [catch] then throws what the conversion threw
    while it narrates the error. In a world whose thrown values all have a
    string conversion processQuery always returns, whatever the planner, the
    tools or the synthesis model do. *)
Theorem processQuery_throws_only_unprintable toLowerCase userQuery h :
  (forall (env : Env) e h',
     processQuery toLowerCase env userQuery h = (Throw e, h') ->
     agenticWorkflow env userQuery h = (Throw (Unprintable e), h')) /\
  (forall (env : PrintableEnv),
     exists answer h',
       processQuery toLowerCase env userQuery h = (Normal answer, h')).
Proof.
  split.
  - intros env e h'. unfold processQuery.
    destruct (is_exit_command toLowerCase userQuery); [discriminate|].
    destruct (jsstring_eqb (trim userQuery) []); [discriminate|].
    unfold try_catch, bind at 1.
    destruct (agenticWorkflow env userQuery h) as [[w|e0] h0]; [discriminate|].
    destruct e0; simpl; try discriminate.
    intros E. injection E as <- <-. reflexivity.
  - intros env. unfold processQuery.
    destruct (is_exit_command toLowerCase userQuery); [eexists _, _; reflexivity|].
    destruct (jsstring_eqb (trim userQuery) []); [eexists _, _; reflexivity|].
    unfold try_catch, bind at 1.
    destruct (agenticWorkflow env userQuery h) as [[w|e0] h0] eqn:W.
    + eexists _, _; reflexivity.
    + destruct (error_description_has_string e0 h0
                  (printable_workflow_throws env userQuery h e0 h0 W)) as (d & D).
      unfold bind. rewrite D. eexists _, _; reflexivity.
Qed.

Lemma processQuery_throws_only_unprintable_witness :
  exists answer h',
    processQuery ascii_toLowerCase offline_world (lit "hello") []
    = (Normal answer, h').
Proof.
  apply (proj2 (processQuery_throws_only_unprintable ascii_toLowerCase
                  (lit "hello") [])
               {| penv := offline_world; penv_printable := offline_world_printable |}).
Defined.

(** X19: input made only of white space never starts the workflow:
    processQuery leaves the history as it was. *)
Theorem processQuery_ignores_blank_input toLowerCase env userQuery h :
  forallb is_whitespace userQuery = true ->
  snd (processQuery toLowerCase env userQuery h) = h.
Proof.
  intros B. unfold processQuery.
  destruct (is_exit_command toLowerCase userQuery); [reflexivity|].
  unfold trim. rewrite (trimStart_blank userQuery B). reflexivity.
Qed.

Lemma processQuery_ignores_blank_input_witness :
  let userQuery := lit "   " ++ [9; 160]%N in
  forallb is_whitespace userQuery = true /\
  snd (processQuery ascii_toLowerCase offline_world userQuery []) = [].
Proof.
  intros userQuery. split; [reflexivity|].
  apply (processQuery_ignores_blank_input ascii_toLowerCase offline_world userQuery []).
  reflexivity.
Defined.

Example processQuery_exit :
  processQuery ascii_toLowerCase sample_env (lit "  QUIT ") [] = (Normal false, []).
Proof. vm_compute. reflexivity. Qed.

Example processQuery_survives_failure :
  processQuery ascii_toLowerCase offline_world (lit "hello") []
  = (Normal true, [planning_call (lit "hello")]).
Proof. vm_compute. reflexivity. Qed.

(** ** exampleWebSearch *)

(** X20: exampleWebSearch never throws. Without an accepted API key it asks
    nothing of the provider; with one it first asks for "Latest research in
    LLMs" with the default parameters and, only if that search returned,
    asks for "AI agents and automation" with 3 results, neural search and
    the start date 2024-01-01. *)
Theorem exampleWebSearch_calls env h :
  let q1 := lit "Latest research in LLMs" in
  let q2 := lit "AI agents and automation" in
  let sp1 := build_searchParams None in
  let sp2 := {| sp_numResults := Fin 3;
                sp_type := neural;
                sp_text := true;
                sp_highlights := true;
                sp_summary := true;
                sp_startPublishedDate := Some (lit "2024-01-01");
                sp_endPublishedDate := None;
                sp_includeDomains := None;
                sp_excludeDomains := None |} in
  exampleWebSearch env h
  = (Normal tt,
     if apiKey_accepted env
     then match searchAndContents env h q1 sp1 with
          | Normal _ => h ++ [EvExaSearch q1 sp1; EvExaSearch q2 sp2]
          | Throw _ => h ++ [EvExaSearch q1 sp1]
          end
     else h).
Proof.
  intros q1 q2 sp1 sp2. unfold exampleWebSearch, try_catch, simpleWebSearch, bind.
  fold q1 q2.
  destruct (apiKey_accepted env) eqn:K.
  - rewrite (webSearch_reaches_provider env q1 None h eq_refl K eq_refl).
    cbv zeta. change (build_searchParams (parsed_options None)) with sp1.
    destruct (searchAndContents env h q1 sp1) as [r1|e1]; [|reflexivity].
    unfold ret at 1.
    rewrite (webSearch_reaches_provider env q2 (Some example_options)
               (h ++ [EvExaSearch q1 sp1]) eq_refl K eq_refl).
    cbv zeta.
    change (build_searchParams (parsed_options (Some example_options))) with sp2.
    rewrite <- app_assoc.
    destruct (searchAndContents env _ q2 sp2); reflexivity.
  - rewrite (webSearch_key_rejected env q1 None h eq_refl K). reflexivity.
Qed.

(** ** The tool registry *)

(** X21: the registry's fetch tool returns the whole content, however long,
    with its length, and lets every error of fetchUrl through (the error of
    the cleanup, else the error of the fetch or what its narration threw);
    like fetchUrl it creates one engine, fetches once and cleans up once. *)
Theorem registry_fetch_keeps_everything env url h :
  let engine := length (filter is_EngineNew h) in
  let h1 := h ++ [EvEngineNew engine] in
  let h2 := h1 ++ [EvFetchHTML engine url] in
  tools_fetchUrl_execute env url h
  = (match cleanup env h2 engine with
     | Throw e => Throw e
     | Normal _ =>
         match fetchHTML env h1 engine url with
         | Normal result =>
             Normal {| o_url := url;
                       o_content := f_content result;
                       o_contentLength := length (f_content result) |}
         | Throw e => Throw (rethrown e)
         end
     end,
     h ++ [EvEngineNew engine; EvFetchHTML engine url; EvCleanup engine]).
Proof.
  intros engine h1 h2. unfold tools_fetchUrl_execute, bind.
  rewrite fetchUrl_run. fold engine h1 h2.
  assert (T : h2 ++ [EvCleanup engine]
              = h ++ [EvEngineNew engine; EvFetchHTML engine url; EvCleanup engine]).
  { unfold h2, h1. rewrite <- !app_assoc. reflexivity. }
  rewrite T.
  destruct (cleanup env h2 engine) as [[]|e]; [|reflexivity].
  destruct (fetchHTML env h1 engine url); reflexivity.
Qed.

(** X22: whenever the registry's haiku tool returns, it reports
    [generated: true] with the pattern "5-7-5", also when the model call
    failed and the haiku is the fixed fallback. It throws only when the model
    call threw a value that has no string conversion, and then throws what
    that conversion threw. *)
Theorem registry_haiku_always_generated env prompt h :
  let p := PromptText (haikuPrompt prompt) in
  let output haiku := {| o_prompt := prompt;
                         o_haiku := haiku;
                         o_syllablePattern := lit "5-7-5";
                         o_generated := true |} in
  tools_generateHaiku_execute env prompt h
  = (match generateText env h "gpt-4.1-nano" p with
     | Normal generated => Normal (output generated)
     | Throw (Unprintable t) => Throw t
     | Throw _ => Normal (output fallbackHaiku)
     end,
     h ++ [EvGenerateText "gpt-4.1-nano" p]).
Proof.
  intros p output. unfold tools_generateHaiku_execute, bind.
  rewrite generateHaiku_run. fold p.
  destruct (generateText env h _ p) as [generated|[]]; reflexivity.
Qed.

(** X23: when the registry's search tool returns, it gives all the results
    of the provider (no cut to three), the search type "auto", and a cost
    that is the provider's total, or 0 when the provider gave no cost or a
    total of 0 or NaN; so the cost is never NaN. *)
Theorem registry_search_output env query h out h' :
  tools_webSearch_execute env query h = (Normal out, h') ->
  exists response,
    searchAndContents env h query (build_searchParams None) = Normal response /\
    h' = h ++ [EvExaSearch query (build_searchParams None)] /\
    o_results out = x_results response /\
    o_requestId out = x_requestId response /\
    o_searchType out = auto /\
    o_cost out = match x_costDollars response with
                 | Some total => if truthy_number total then total else Fin 0
                 | None => Fin 0
                 end /\
    o_cost out <> NaN.
Proof.
  unfold tools_webSearch_execute, bind. intros E.
  destruct (webSearch_paths env query None h)
    as [(m & W & _) | (_ & _ & _ & W)].
  - rewrite W in E. discriminate E.
  - cbv zeta in W. rewrite W in E.
    change (build_searchParams (parsed_options None))
      with (build_searchParams None) in E.
    destruct (searchAndContents env h query (build_searchParams None))
      as [response|e]; [|discriminate E].
    injection E as <- <-. exists response. simpl. repeat split.
    destruct (x_costDollars response) as [[q| | |]|]; simpl; try discriminate.
    destruct (negb (Qeq_bool q 0)); discriminate.
Qed.

Lemma registry_search_output_witness :
  exists out h',
    tools_webSearch_execute sample_env (lit "good") [] = (Normal out, h') /\
    length (o_results out) = 5 /\
    o_cost out = Fin 0.
Proof.
  destruct (tools_webSearch_execute sample_env (lit "good") [])
    as [[out|e] h'] eqn:E; [|vm_compute in E; discriminate E].
  exists out, h'. split; [reflexivity|].
  destruct (registry_search_output sample_env (lit "good") [] out h' E)
    as (response & P & _ & R & _ & _ & C & _).
  vm_compute in P. injection P as <-.
  rewrite R, C. split; reflexivity.
Defined.

(** ** A failing cleanup *)

(** X24: when cleanup throws, fetchUrl throws the error of the cleanup,
    whatever the fetch did: fetched content is lost and an error of the
    fetch is replaced; the registry's tool throws it too. The dispatcher
    records an error entry with the description of the cleanup error when
    that error has a string conversion; when it has none, the [catch] of the
    dispatcher throws what the conversion threw and records nothing. *)
Theorem failed_cleanup_masks_the_fetch env url acc h e :
  let engine := length (filter is_EngineNew h) in
  let h' := h ++ [EvEngineNew engine; EvFetchHTML engine url; EvCleanup engine] in
  cleanup env ((h ++ [EvEngineNew engine]) ++ [EvFetchHTML engine url]) engine
  = Throw e ->
  fetchUrl env url h = (Throw e, h') /\
  tools_fetchUrl_execute env url h = (Throw e, h') /\
  fetchUrl_step env url acc h
  = match e with
    | ErrorObj description | ZodErrorObj description _ | NonError description =>
        (Normal (push acc {| tool := fetchUrlTool;
                             argument := url;
                             outcome := Failure description |}), h')
    | Unprintable t => (Throw t, h')
    end.
Proof.
  intros engine h' C.
  assert (F : fetchUrl env url h = (Throw e, h')).
  { rewrite fetchUrl_run. fold engine. rewrite C. unfold h'.
    rewrite <- !app_assoc. reflexivity. }
  split; [exact F|]. split.
  - unfold tools_fetchUrl_execute, bind. rewrite F. reflexivity.
  - unfold fetchUrl_step, try_catch, bind at 1. rewrite F.
    destruct e; reflexivity.
Qed.

Lemma failed_cleanup_masks_the_fetch_witness :
  let url := lit "https://example.com" in
  fetchHTML leaky_world [EvEngineNew 0] 0 url
  = Normal {| f_content := repeat 97%N 2500; f_error := None |} /\
  fetchUrl_step leaky_world url [] []
  = (Normal (push [] {| tool := fetchUrlTool;
                        argument := url;
                        outcome := Failure (lit "browser did not close") |}),
     [] ++ [EvEngineNew 0; EvFetchHTML 0 url; EvCleanup 0]) /\
  fetchUrl_step opaque_cleanup_world url [] []
  = (Throw (ErrorObj (lit "Cannot convert object to primitive value")),
     [] ++ [EvEngineNew 0; EvFetchHTML 0 url; EvCleanup 0]).
Proof.
  intros url. split; [reflexivity|]. split.
  - apply (failed_cleanup_masks_the_fetch leaky_world url [] []
             (ErrorObj (lit "browser did not close"))).
    reflexivity.
  - apply (failed_cleanup_masks_the_fetch opaque_cleanup_world url [] []
             nullPrototype).
    reflexivity.
Defined.

(** ** The entries of a run *)

(** X25: in any world, when the dispatch loop completes, its entries are
    those of the invocations of the plan in order, and each is well formed:
    a success carries the payload of its own tool, with at most 3 search
    results, or with fetched content whose length is the smaller of 2000 and
    the recorded contentLength. *)
Theorem entries_well_formed env plan h toolResults h' :
  executeTools env plan h = (Normal toolResults, h') ->
  map key toolResults = invocations plan /\
  length toolResults = invocation_count plan /\
  Forall entry_well_formed toolResults.
Proof.
  intros E. destruct (executeTools_normal env plan h toolResults h' E) as (K & F).
  split; [exact K|]. split; [|exact F].
  rewrite <- invocation_count_length, <- K. symmetry. apply length_map.
Qed.

Lemma entries_well_formed_witness :
  exists toolResults h',
    executeTools opaque_model_world sample_plan [] = (Normal toolResults, h') /\
    map (fun r => (tool r, is_success r)) toolResults
    = [(webSearchTool, false); (webSearchTool, true);
       (fetchUrlTool, false); (fetchUrlTool, true);
       (generateHaikuTool, false)] /\
    length toolResults = invocation_count sample_plan /\
    Forall entry_well_formed toolResults.
Proof.
  destruct (executeTools opaque_model_world sample_plan []) as [[rs|e] h'] eqn:E;
    [|vm_compute in E; discriminate E].
  exists rs, h'. split; [reflexivity|].
  destruct (entries_well_formed opaque_model_world sample_plan [] rs h' E)
    as (_ & L & F).
  split; [|split; [exact L | exact F]].
  vm_compute in E. injection E as <- _. reflexivity.
Defined.

(** ** The number of results asked for, on any options *)

(** X26: the expression [Math.min(Math.max(numResults || 5, 3), 5)] yields a
    finite number between 3 and 5 for every value of numResults, also the
    ones the schema rejects (0, negative numbers, NaN, the infinities), and
    5 when there are no options. *)
Theorem clamp_numResults_total parsedOptions :
  exists n, clamp_numResults parsedOptions = Fin n /\ (3 <= n <= 5)%Q.
Proof.
  unfold clamp_numResults.
  destruct parsedOptions as [po|]; cbn [option_map or_number].
  2:{ exists 5%Q. split; [reflexivity | lra]. }
  destruct (numResults po) as [q| | |]; cbn [truthy_number].
  - destruct (negb (Qeq_bool q 0)).
    + cbn [Math_max]. destruct (Qle_bool q 3) eqn:A; cbn [Math_min].
      * exists 3%Q. split; [reflexivity | lra].
      * apply Qle_bool_false in A. destruct (Qle_bool q 5) eqn:B.
        -- apply Qle_bool_iff in B. exists q. split; [reflexivity | lra].
        -- exists 5%Q. split; [reflexivity | lra].
    + exists 5%Q. split; [reflexivity | lra].
  - exists 5%Q. split; [reflexivity | lra].
  - exists 5%Q. split; [reflexivity | lra].
  - exists 3%Q. split; [reflexivity | lra].
Qed.

(** ** The haiku executor, in every world *)

(** X27: generateHaiku makes exactly one model call. It returns the text of
    the model; when the model call throws a value that has a string
    conversion it returns the fixed fallback haiku; when the thrown value
    has none it throws what the conversion threw. *)
Theorem generateHaiku_outcomes env prompt h :
  let p := PromptText (haikuPrompt prompt) in
  generateHaiku env prompt h
  = (match generateText env h "gpt-4.1-nano" p with
     | Normal haiku => Normal haiku
     | Throw (ErrorObj _) | Throw (ZodErrorObj _ _) | Throw (NonError _) =>
         Normal fallbackHaiku
     | Throw (Unprintable t) => Throw t
     end,
     h ++ [EvGenerateText "gpt-4.1-nano" p]).
Proof.
  intros p. rewrite generateHaiku_run. fold p.
  destruct (generateText env h _ p) as [haiku|[]]; reflexivity.
Qed.

(** X28: in a world whose thrown values all have a string conversion,
    generateHaiku never throws, the dispatcher records a success entry for
    every haiku invocation, with the model's text or the fallback, and no
    haiku entry of a run is an error entry. *)
Theorem printable_haiku_never_fails (env : PrintableEnv) prompt acc plan h :
  let p := PromptText (haikuPrompt prompt) in
  let haiku := match generateText env h "gpt-4.1-nano" p with
               | Normal generated => generated
               | Throw _ => fallbackHaiku
               end in
  generateHaiku env prompt h
  = (Normal haiku, h ++ [EvGenerateText "gpt-4.1-nano" p]) /\
  generateHaiku_step env prompt acc h
  = (Normal (push acc {| tool := generateHaikuTool;
                         argument := prompt;
                         outcome := Result (HaikuPayload haiku) |}),
     h ++ [EvGenerateText "gpt-4.1-nano" p]) /\
  exists toolResults h',
    executeTools env plan h = (Normal toolResults, h') /\
    forallb haiku_succeeds toolResults = true.
Proof.
  intros p haiku. split; [apply printable_generateHaiku_run|].
  split; [apply generateHaiku_step_run|].
  destruct (executeTools_spec env plan h) as (rs & h' & E & _ & P).
  exists rs, h'. auto.
Qed.

(** ** Recorded failures *)

(** X29: in a world whose thrown values all have a string conversion, when
    a search or fetch invocation of the plan throws, the invocations before
    it having produced [rs_pre], the loop adds for it one error entry with
    its tool, its argument and the description of the error, then runs the
    remaining invocations, one entry each; the loop completes normally and
    the workflow calls the synthesis model with all these entries. *)
Theorem printable_tool_failure_is_recorded
  (env : PrintableEnv) userQuery h plan pre t a post rs_pre h_i e h_e :
  generateObject env h userQuery = Normal plan ->
  invocations plan = pre ++ (t, a) :: post ->
  for_of pre (invoke env) [] (h ++ [planning_call userQuery]) = (Normal rs_pre, h_i) ->
  (t = webSearchTool /\ webSearch env a None h_i = (Throw e, h_e)) \/
  (t = fetchUrlTool /\ fetchUrl env a h_i = (Throw e, h_e)) ->
  exists description rs_post h',
    error_description e h_e = (Normal description, h_e) /\
    let failed := {| tool := t;
                     argument := a;
                     outcome := Failure description |} in
    for_of post (invoke env) (rs_pre ++ [failed]) h_e
    = (Normal (rs_pre ++ failed :: rs_post), h') /\
    map key rs_post = post /\
    executeTools env plan (h ++ [planning_call userQuery])
    = (Normal (rs_pre ++ failed :: rs_post), h') /\
    snd (agenticWorkflow env userQuery h)
    = h' ++ [synthesis_call plan userQuery (rs_pre ++ failed :: rs_post)].
Proof.
  intros P I Pre F.
  assert (D : exists d,
             error_description e h_e = (Normal d, h_e) /\
             invoke env (t, a) rs_pre h_i
             = (Normal (rs_pre ++ [{| tool := t; argument := a;
                                      outcome := Failure d |}]), h_e)).
  { destruct F as [(-> & W)|(-> & W)]; unfold invoke; cbn [fst snd].
    - destruct (webSearch_step_err _ _ rs_pre _ _ _ W) as (m & -> & S).
      exists m. split; [reflexivity | exact S].
    - destruct (error_description_has_string e h_e
                  (printable_fetchUrl_throws env a h_i e h_e W)) as (d & D).
      exists d. split; [exact D|].
      apply (fetchUrl_step_err _ _ rs_pre _ _ _ _ W D). }
  destruct D as (d & D & S).
  set (failed := {| tool := t; argument := a; outcome := Failure d |}) in *.
  destruct (run_spec env post (rs_pre ++ [failed]) h_e) as (rs_post & h' & E & K & _).
  rewrite <- app_assoc in E. simpl in E.
  exists d, rs_post, h'. split; [exact D|]. fold failed.
  split; [exact E|]. split; [exact K|].
  assert (X : executeTools env plan (h ++ [planning_call userQuery])
              = (Normal (rs_pre ++ failed :: rs_post), h')).
  { rewrite executeTools_flat, I, for_of_app. unfold bind at 1. rewrite Pre.
    cbn [for_of]. unfold bind. rewrite S. exact E. }
  split; [exact X|].
  rewrite (agenticWorkflow_run _ _ _ _ _ _ P X). reflexivity.
Qed.

Lemma printable_tool_failure_is_recorded_witness :
  let env := sample_env in
  let userQuery := lit "what is new?" in
  let failed := {| tool := webSearchTool;
                   argument := lit "bad";
                   outcome := Failure (lit "Web search failed: rate limited") |} in
  exists rs_post h',
    map (fun r => (key r, is_success r)) rs_post
    = [((webSearchTool, lit "good"), true);
       ((fetchUrlTool, lit "https://down.example"), false);
       ((fetchUrlTool, lit "https://example.com"), true);
       ((generateHaikuTool, lit "the sea"), true)] /\
    executeTools env sample_plan [planning_call userQuery]
    = (Normal (failed :: rs_post), h') /\
    snd (agenticWorkflow env userQuery [])
    = h' ++ [synthesis_call sample_plan userQuery (failed :: rs_post)].
Proof.
  intros env userQuery failed.
  destruct (printable_tool_failure_is_recorded
              {| penv := env; penv_printable := sample_world_printable sample_plan |}
              userQuery [] sample_plan
              [] webSearchTool (lit "bad")
              [(webSearchTool, lit "good");
               (fetchUrlTool, lit "https://down.example");
               (fetchUrlTool, lit "https://example.com");
               (generateHaikuTool, lit "the sea")]
              [] [planning_call userQuery]
              (ErrorObj (lit "Web search failed: rate limited"))
              [planning_call userQuery;
               EvExaSearch (lit "bad") (build_searchParams None)])
    as (d & rs_post & h' & D & E & K & X & W).
  - reflexivity.
  - reflexivity.
  - reflexivity.
  - left. split; [reflexivity | vm_compute; reflexivity].
  - simpl in D. injection D as <-.
    exists rs_post, h'. split; [|split; [exact X | exact W]].
    cbn [app] in E. vm_compute in E. injection E as E _.
    inversion E; subst. vm_compute. reflexivity.
Defined.
